(** * DSSAT tool server: a model of [server.py] and [mcp_tools_utils.py]

    The three request handlers of [server.py] ([run_dssat_experiment],
    [download_files_from_s3], [upload_and_collect_output_files]) and the
    helper [_parse_summary] are embedded as functions over an explicit
    state (file system, current directory, log of external effects).
    What lies outside the repository (the object store, the simulation
    executable, the operating system refusing an operation, Python's
    [float]) is a field of the record [World], so every theorem holds for
    all behaviours of those collaborators.

    Conventions of the model:
    - a Python [str] is a [string]; a character is a code point below 256;
    - a POSIX path is the list of its components below the root [/];
      the file system holds directories and regular files and no symbolic
      links, so [Path.resolve] is the lexical elimination of [..];
    - names are free of the NUL character. *)

From Stdlib Require Import ZArith NArith Ascii String.
From stdpp Require Import gmap strings list fin_maps.

Local Open Scope Z_scope.

(** ** Python strings *)

Module Py.

(** [str.isspace] on one code point below 256. *)
Definition is_space (c : ascii) : bool :=
  let n := N_of_ascii c in
  ((9 <=? n) && (n <=? 13) || (28 <=? n) && (n <=? 32)
   || (n =? 133) || (n =? 160))%N.

Fixpoint lstrip (s : string) : string :=
  match s with
  | String c s' => if is_space c then lstrip s' else s
  | EmptyString => EmptyString
  end.

Definition rstrip (s : string) : string := String.rev (lstrip (String.rev s)).

(** [s.strip()] *)
Definition strip (s : string) : string := rstrip (lstrip s).

(** [s[a:b]] for literal bounds [0 <= a <= b]; a short string gives a
    short (possibly empty) slice, never an error. *)
Definition slice (a b : nat) (s : string) : string :=
  String.substring a (b - a) s.

Fixpoint drop (n : nat) (s : string) : string :=
  match n, s with
  | S n', String _ s' => drop n' s'
  | _, _ => s
  end.

(** [s[-n:]] for a literal [n > 0]: the start index [len(s) - n] is
    clipped at [0]. *)
Definition tail (n : nat) (s : string) : string :=
  drop (String.length s - n) s.

(** [s.startswith(p)] *)
Definition startswith (p s : string) : bool := String.prefix p s.

(** [not s] for a string. *)
Definition is_empty (s : string) : bool :=
  match s with EmptyString => true | _ => false end.

(** Text-mode reading translates ["\r\n"] and ["\r"] to ["\n"]. *)
Fixpoint universal_newlines (s : string) : string :=
  match s with
  | String "013" ((String "010" s')) => String "010" (universal_newlines s')
  | String "013" s' => String "010" (universal_newlines s')
  | String c s' => String c (universal_newlines s')
  | EmptyString => EmptyString
  end.

(** [for line in fh]: the lines of a text, each with its newline. [cur]
    is the current line, reversed. *)
Fixpoint lines_go (cur : string) (s : string) : list string :=
  match s with
  | EmptyString => if is_empty cur then [] else [String.rev cur]
  | String c s' =>
      if Ascii.eqb c "010" then String.rev (String c cur) :: lines_go "" s'
      else lines_go (String c cur) s'
  end.

Definition lines (text : string) : list string :=
  lines_go "" (universal_newlines text).

(** [s.split(sep)] for a one-character separator. *)
Fixpoint split_go (sep : ascii) (cur : string) (s : string) : list string :=
  match s with
  | EmptyString => [String.rev cur]
  | String c s' =>
      if Ascii.eqb c sep then String.rev cur :: split_go sep "" s'
      else split_go sep (String c cur) s'
  end.

Definition split (sep : ascii) (s : string) : list string := split_go sep "" s.

(** [sep.join(l)] *)
Definition join (sep : string) (l : list string) : string := String.concat sep l.

End Py.

(** ** Paths ([pathlib.Path] on POSIX) *)

(** An absolute path: its components below [/]. Unresolved [..]
    components may occur until [resolve] is applied. *)
Abbreviation Path := (list string).

Module PathLib.

(** The components of a path string: empty components and [.] are
    dropped when a [Path] is built, [..] is kept. *)
Definition parts (s : string) : list string :=
  filter (λ c, c ≠ "" ∧ c ≠ ".") (Py.split "/" s).

Definition is_absolute (s : string) : bool := Py.startswith "/" s.

(** [p / s]: an absolute right operand replaces the left one. *)
Definition joinpath (p : Path) (s : string) : Path :=
  if is_absolute s then parts s else p ++ parts s.

Definition parent (p : Path) : Path := removelast p.

(** [p.resolve()] in a file system without symbolic links: [..] removes
    the component before it, and is dropped at the root. *)
Definition resolve (p : Path) : Path :=
  foldl (λ acc c, if decide (c = "..") then parent acc else acc ++ [c]) [] p.

(** [p.parents]: the proper ancestors of [p], nearest first. *)
Definition parents (p : Path) : list Path :=
  (λ i, take i p) <$> reverse (seq 0 (length p)).

(** [str(p)] *)
Definition str (p : Path) : string := "/" +:+ Py.join "/" p.

(** [str(full.relative_to(base))] when [base] is an ancestor of [full]. *)
Definition relative_to (base full : Path) : string :=
  Py.join "/" (drop (length base) full).

End PathLib.

(** ** Operating-system errors *)

Inductive Errno := ENOENT | EACCES | EEXIST | ENOTDIR | EISDIR.

#[global] Instance Errno_eq_dec : EqDecision Errno.
Proof. solve_decision. Defined.

(** An [OSError] with the path it is about. [FileNotFoundError] is the
    subclass with [errno = ENOENT]. *)
Record OSError := { errno : Errno; filename : Path }.

Definition strerror (e : Errno) : string :=
  match e with
  | ENOENT => "No such file or directory"
  | EACCES => "Permission denied"
  | EEXIST => "File exists"
  | ENOTDIR => "Not a directory"
  | EISDIR => "Is a directory"
  end.

Definition errno_prefix (e : Errno) : string :=
  match e with
  | ENOENT => "[Errno 2] "
  | EACCES => "[Errno 13] "
  | EEXIST => "[Errno 17] "
  | ENOTDIR => "[Errno 20] "
  | EISDIR => "[Errno 21] "
  end.

(** [str(exc)] of an [OSError]: ["[Errno n] text: 'path'"] (the quoting of
    [repr] is the one of a name without quotes or escapes). *)
Definition OSError_str (e : OSError) : string :=
  errno_prefix (errno e) +:+ strerror (errno e) +:+ ": '"
    +:+ PathLib.str (filename e) +:+ "'".

(** ** The file system *)

Module Fs.

Inductive node := File (content : string) | Dir.

(** A finite map from absolute paths to nodes; the root is a directory.
    An entry is visible only through directories ([walk]). *)
Abbreviation FS := (gmap (list string) node).

Definition node_at (fs : FS) (p : Path) : option node :=
  match p with [] => Some Dir | _ => fs !! p end.

(** Walk components [cs] from the directory [cur], as the kernel does:
    each step needs the current node to be a directory. *)
Fixpoint walk (fs : FS) (cur : Path) (cs : list string) : Errno + Path :=
  match cs with
  | [] => inr cur
  | c :: cs' =>
      match node_at fs cur with
      | Some Dir =>
          walk fs (if decide (c = "..") then PathLib.parent cur else cur ++ [c]) cs'
      | Some (File _) => inl ENOTDIR
      | None => inl ENOENT
      end
  end.

(** [os.stat] of an absolute path. *)
Definition stat (fs : FS) (p : Path) : Errno + node :=
  match walk fs [] p with
  | inl e => inl e
  | inr q => match node_at fs q with Some n => inr n | None => inl ENOENT end
  end.

(** [p.is_dir()], [p.is_file()]: [False] on any error. *)
Definition is_dir (fs : FS) (p : Path) : bool :=
  match stat fs p with inr Dir => true | _ => false end.

Definition is_file (fs : FS) (p : Path) : bool :=
  match stat fs p with inr (File _) => true | _ => false end.

Definition read (fs : FS) (p : Path) : option string :=
  match stat fs p with inr (File c) => Some c | _ => None end.

(** [p.mkdir(parents=True, exist_ok=True)] for a resolved [p]: create
    the missing directories from the root down. [cur] is the directory
    reached so far, [cs] what remains of [p]. *)
Fixpoint mkdir_from (fs : FS) (cur : Path) (cs : list string) : OSError + FS :=
  match cs with
  | [] => inr fs
  | c :: cs' =>
      let nxt := cur ++ [c] in
      match node_at fs nxt with
      | Some Dir => mkdir_from fs nxt cs'
      | Some (File _) =>
          inl {| errno := if cs' is [] then EEXIST else ENOTDIR;
                 filename := cur ++ c :: cs' |}
      | None => mkdir_from (<[nxt := Dir]> fs) nxt cs'
      end
  end.

Definition mkdir_parents (fs : FS) (p : Path) : OSError + FS := mkdir_from fs [] p.

(** Where the string [name], relative to the directory [cwd], puts a
    regular file to create or overwrite. *)
Definition target (fs : FS) (cwd : Path) (name : string) : OSError + Path :=
  let cs := Py.split "/" name in
  let dirs := filter (λ c, c ≠ "" ∧ c ≠ ".") (removelast cs) in
  let base := last cs in
  match walk fs cwd dirs with
  | inl e => inl {| errno := e; filename := cwd ++ PathLib.parts name |}
  | inr d =>
      match node_at fs d, base with
      | Some Dir, Some b =>
          if decide (b = "" ∨ b = "." ∨ b = "..") then
            inl {| errno := EISDIR; filename := d |}
          else
            match node_at fs (d ++ [b]) with
            | Some Dir => inl {| errno := EISDIR; filename := d ++ [b] |}
            | _ => inr (d ++ [b])
            end
      | Some (File _), _ => inl {| errno := ENOTDIR; filename := d |}
      | _, _ => inl {| errno := ENOENT; filename := d |}
      end
  end.

(** Write [content] there. *)
Definition create (fs : FS) (cwd : Path) (name : string) (content : string)
  : OSError + (Path * FS) :=
  match target fs cwd name with
  | inl e => inl e
  | inr p => inr (p, <[p := File content]> fs)
  end.

Definition under (p q : Path) : bool := bool_decide (p `prefix_of` q).

(** The regular files below [p], as [os.walk] reaches them. *)
Definition files_under (fs : FS) (p : Path) : list (Path * string) :=
  omap (λ '(q, n),
          match n with
          | File c => if under p q && is_file fs q then Some (q, c) else None
          | Dir => None
          end) (map_to_list fs).

(** [q] cannot be removed: the system refuses it, or something below it. *)
Definition held (refused : Path → bool) (fs : FS) (q : Path) : bool :=
  existsb (λ d, refused d && under q d) (map_to_list fs).*1.

(** What [shutil.rmtree(p)] leaves: everything outside [p], and inside
    [p] what is held. A [p] that is not a directory is left alone. *)
Definition rmtree (refused : Path → bool) (fs : FS) (p : Path) : FS :=
  if is_dir fs p then
    filter (λ '(q, _), under p q = false ∨ held refused fs q = true) fs
  else fs.

(** The first refusal met below [p], if any. *)
Definition rmtree_error (refused : Path → bool) (fs : FS) (p : Path)
  : option OSError :=
  if is_dir fs p then
    (λ d, {| errno := EACCES; filename := d |}) <$>
      find (λ d, refused d && under p d) (map_to_list fs).*1
  else
    Some {| errno := match stat fs p with inl e => e | inr _ => ENOTDIR end;
            filename := p |}.

End Fs.

Abbreviation FS := Fs.FS.

(** ** Request payloads and the schemas of [mcp_tools_utils.py] *)

(** A decoded JSON value. A [dict] is a list of bindings looked up by key. *)
#[warnings="-register-all"]
Inductive json :=
| JNull
| JBool (b : bool)
| JNum (n : Z)
| JStr (s : string)
| JArr (items : list json)
| JObj (fields : list (string * json)).

Abbreviation dict := (list (string * json)).

(** [d.get(k)] *)
Fixpoint dict_get (k : string) (d : dict) : option json :=
  match d with
  | [] => None
  | (k', v) :: d' => if decide (k = k') then Some v else dict_get k d'
  end.

(** [k in d] *)
Definition has_key (k : string) (d : dict) : bool :=
  match dict_get k d with Some _ => true | None => false end.

Module RunArgs.
Record t := { folder : string; experiment_file : string }.
End RunArgs.

Module DownloadS3Args.
Record t := { folder : string; experiment_file : string;
              files_names_list : list string }.
End DownloadS3Args.

Module UploadCollectOutputArgs.
Record t := { folder : string }.
End UploadCollectOutputArgs.

(** A field declared [str] takes a JSON string and nothing else. *)
Definition as_str (v : option json) : option string :=
  match v with Some (JStr s) => Some s | _ => None end.

(** A field declared [List[str]]. *)
Definition as_str_list (v : json) : option (list string) :=
  match v with
  | JArr items => mapM (λ i, as_str (Some i)) items
  | _ => None
  end.

(** ** Results *)

Module SummaryRecord.
Record t (F : Type) := { expt : string; pl_date : string; yield_kg_ha : F }.
Arguments expt {F}. Arguments pl_date {F}. Arguments yield_kg_ha {F}.
End SummaryRecord.

(** The dictionary returned by [_parse_summary]. *)
Module SummaryReport.
Record t (F : Type) :=
  { n_treatments : nat; treatments : list (SummaryRecord.t F) }.
Arguments n_treatments {F}. Arguments treatments {F}.
End SummaryReport.

Module RunResult.
Record t (F : Type) :=
  { exit_code : Z; stdout : string; stderr : string;
    summary : option (SummaryReport.t F) }.
Arguments exit_code {F}. Arguments stdout {F}. Arguments stderr {F}.
Arguments summary {F}.
End RunResult.

Module DownloadS3ArgsResult.
Record t := { exit_code : Z; folder_name : string }.
End DownloadS3ArgsResult.

Module UploadCollectOutputArgsResult.
Record t := { exit_code : Z; s3_presigned_url : string }.
End UploadCollectOutputArgsResult.

(** ** Exceptions *)

(** A [botocore] [ClientError]: the [Code] and [Message] of its response
    (either may be absent) and its own text. *)
Record ClientError :=
  { ce_code : option string; ce_message : option string; ce_text : string }.

(** The text of a [RuntimeError] raised by the handlers. *)
Inductive Message :=
| Text (s : string)
| DownloadsFailed (errors : gmap string string).
    (* f"One or more downloads failed: {errors}" *)

Inductive Exn :=
| HTTPException (status_code : Z) (detail : string)
| RuntimeError (msg : Message)
| PyOSError (e : OSError)
| BotoClientError (e : ClientError)
| NoCredentialsError (text : string)
| EndpointConnectionError (endpoint_url : string) (text : string)
| OtherException (text : string)
| TimeoutExpired
| ValidationError
| PyTypeError.

(** [str(e)] *)
Definition Exn_str (e : Exn) : string :=
  match e with
  | PyOSError e => OSError_str e
  | BotoClientError e => ce_text e
  | NoCredentialsError t | EndpointConnectionError _ t | OtherException t => t
  | HTTPException _ d => d
  | _ => ""
  end.

(** ** The world outside the repository *)

(** An archive: its entries (name, content) in the order written. *)
Abbreviation Archive := (list (string * string)).

(** How [subprocess.run] ends: the process exits within the timeout, or
    the timeout expires, or the executable cannot be started. The process
    may have changed the file system in the first two cases. *)
Inductive RunOutcome :=
| Completed (returncode : Z) (stdout stderr : string) (fs' : FS)
| Expired (fs' : FS)
| LaunchFailed (e : OSError).

Record World (F : Type) := {
  (** Python's [float(s)]; [None] when it raises *)
  py_float : string → option F;
  (** [json.loads(s)], else [ast.literal_eval(s)]: the items through [str]
      when the value is a list, [TypeError] when it is not, or the
      exception of the parser *)
  list_literal : string → Exn + list string;
  (** [boto3.client("s3", ...)] *)
  boto3_client : option Exn;
  (** the object behind a key, or why [download_file] fails *)
  s3_object : string → Exn + string;
  (** [upload_fileobj(buf, bucket, key)] *)
  s3_upload : string → Archive → option Exn;
  (** [generate_presigned_url("get_object", ...)] *)
  s3_presign : string → Exn + string;
  (** [subprocess.run(cmd, cwd=..., timeout=...)] in a file system *)
  subprocess_run : list string → Path → N → FS → RunOutcome;
  (** paths the system refuses to remove *)
  rm_refused : Path → bool;
  (** files the system refuses to read *)
  read_refused : Path → bool;
}.

Arguments py_float {F}. Arguments list_literal {F}. Arguments boto3_client {F}.
Arguments s3_object {F}. Arguments s3_upload {F}. Arguments s3_presign {F}.
Arguments subprocess_run {F}. Arguments rm_refused {F}.
Arguments read_refused {F}.

(** External effects, in the order they happen. *)
Inductive Event :=
| EvChdir (p : Path)
| EvMkdir (p : Path)
| EvDownload (key : string) (dest : option Path)
| EvUpload (key : string) (body : Archive)
| EvRmtree (p : Path)
| EvSpawn (cmd : list string) (cwd : Path) (timeout : N).

#[global] Instance Event_eq_dec : EqDecision Event.
Proof. solve_decision. Defined.

Record State := { fs : FS; cwd : Path; log : list Event }.

Definition set_fs (f : FS) (st : State) : State :=
  {| fs := f; cwd := cwd st; log := log st |}.
Definition set_cwd (p : Path) (st : State) : State :=
  {| fs := fs st; cwd := p; log := log st |}.
Definition record (e : Event) (st : State) : State :=
  {| fs := fs st; cwd := cwd st; log := log st ++ [e] |}.

(** ** Computations that change the state and may raise *)

Inductive Result (A : Type) := Return (a : A) | Raise (e : Exn).
Arguments Return {A}. Arguments Raise {A}.

Definition M (A : Type) : Type := State → Result A * State.

Definition ret {A} (a : A) : M A := λ st, (Return a, st).
Definition raise {A} (e : Exn) : M A := λ st, (Raise e, st).
Definition bind {A B} (m : M A) (k : A → M B) : M B :=
  λ st, match m st with
        | (Return a, st') => k a st'
        | (Raise e, st') => (Raise e, st')
        end.

(** [try: m  except ... as e: h e]; the state reached by [m] is kept. *)
Definition try {A} (m : M A) (h : Exn → M A) : M A :=
  λ st, match m st with
        | (Return a, st') => (Return a, st')
        | (Raise e, st') => h e st'
        end.

#[global] Instance M_ret : MRet M := @ret.
#[global] Instance M_bind : MBind M := λ A B k m, bind m k.

(** A pure step that returns or raises, run without touching the state. *)
Definition lift {A} (r : Result A) : M A := λ st, (r, st).

(** ** Primitive operations *)

Definition get_fs : M FS := λ st, (Return (fs st), st).

(** [os.chdir(p)] *)
Definition os_chdir (p : Path) : M unit :=
  λ st, match Fs.stat (fs st) p with
        | inr Fs.Dir => (Return (), record (EvChdir p) (set_cwd p st))
        | inr (Fs.File _) => (Raise (PyOSError {| errno := ENOTDIR; filename := p |}), st)
        | inl e => (Raise (PyOSError {| errno := e; filename := p |}), st)
        end.

(** [p.mkdir(parents=True, exist_ok=True)] *)
Definition mkdir (p : Path) : M unit :=
  λ st, match Fs.mkdir_parents (fs st) p with
        | inr fs' => (Return (), record (EvMkdir p) (set_fs fs' st))
        | inl e => (Raise (PyOSError e), st)
        end.

(** [boto3.client("s3", ...)] *)
Definition make_client {F} (w : World F) : M unit :=
  match boto3_client w with
  | None => ret ()
  | Some e => raise e
  end.

(** [s3.download_file(S3_BUCKET, key, f"./{key}")]: the object is written
    below the current directory, or an exception says why not. *)
Definition download_file {F} (w : World F) (key : string) : M unit :=
  λ st, match s3_object w key with
        | inl e => (Raise e, record (EvDownload key None) st)
        | inr body =>
            match Fs.create (fs st) (cwd st) ("./" +:+ key) body with
            | inl e => (Raise (PyOSError e), record (EvDownload key None) st)
            | inr (p, fs') => (Return (), record (EvDownload key (Some p)) (set_fs fs' st))
            end
        end.

(** The [os.walk] loop writing every file below [work_dir] into the
    archive under its relative name. *)
Definition build_zip {F} (w : World F) (work_dir : Path) : M Archive :=
  λ st, let files := Fs.files_under (fs st) work_dir in
        match find (λ f, read_refused w f.1) files with
        | Some f => (Raise (PyOSError {| errno := EACCES; filename := f.1 |}), st)
        | None =>
            (Return ((λ f, (PathLib.relative_to work_dir f.1, f.2)) <$> files), st)
        end.

(** [s3.upload_fileobj(buf, S3_BUCKET, key)] *)
Definition upload_fileobj {F} (w : World F) (buf : Archive) (key : string) : M unit :=
  λ st, match s3_upload w key buf with
        | Some e => (Raise e, st)
        | None => (Return (), record (EvUpload key buf) st)
        end.

(** [shutil.rmtree(p, ignore_errors=...)]: what can be removed is removed;
    a refusal is raised only when errors are not ignored. *)
Definition shutil_rmtree {F} (w : World F) (p : Path) (ignore_errors : bool) : M unit :=
  λ st, let st' := record (EvRmtree p) (set_fs (Fs.rmtree (rm_refused w) (fs st) p) st) in
        if ignore_errors then (Return (), st')
        else match Fs.rmtree_error (rm_refused w) (fs st) p with
             | Some e => (Raise (PyOSError e), st')
             | None => (Return (), st')
             end.

(** [s3.generate_presigned_url("get_object", Params={..., "Key": key})] *)
Definition generate_presigned_url {F} (w : World F) (key : string) : M string :=
  match s3_presign w key with
  | inr url => ret url
  | inl e => raise e
  end.

(** [subprocess.run(cmd, cwd=dir, text=True, capture_output=True,
    timeout=timeout, check=False)] *)
Definition run_process {F} (w : World F) (cmd : list string) (dir : Path)
    (timeout : N) : M (Z * string * string) :=
  λ st, let st := record (EvSpawn cmd dir timeout) st in
        match subprocess_run w cmd dir timeout (fs st) with
        | Completed rc out err fs' => (Return (rc, out, err), set_fs fs' st)
        | Expired fs' => (Raise TimeoutExpired, set_fs fs' st)
        | LaunchFailed e => (Raise (PyOSError e), st)
        end.

(** ** Configuration constants of [server.py] *)

Definition DSSAT_EXE : Path := ["home"; "christos"; "dssat-csm-os"; "build"; "bin"; "dscsm048"].
Definition DATA_ROOT : Path := ["home"; "christos"; "dssat-csm-os"; "build"; "bin"].

(** [DATA_ROOT in work_dir.parents] *)
Definition in_parents (root work_dir : Path) : bool :=
  bool_decide (root ∈ PathLib.parents work_dir).

(** ** Schema validation: building [RunArgs] and the like from a dictionary *)

Definition RunArgs_new (v : json) : Result RunArgs.t :=
  match v with
  | JObj d =>
      match as_str (dict_get "folder" d), as_str (dict_get "experiment_file" d) with
      | Some f, Some e => Return {| RunArgs.folder := f; RunArgs.experiment_file := e |}
      | _, _ => Raise ValidationError
      end
  | _ => Raise PyTypeError
  end.

(** The [field_validator] of [files_names_list], run before the field's
    own validation as [List[str]]. *)
Definition coerce_files {F} (w : World F) (v : json) : Result (list string) :=
  match v with
  | JArr _ =>
      match as_str_list v with
      | Some l => Return l
      | None => Raise ValidationError
      end
  | JStr s =>
      match list_literal w s with
      | inr l => Return l
      | inl e => Raise e
      end
  | _ => Raise PyTypeError
  end.

Definition DownloadS3Args_new {F} (w : World F) (v : json) : Result DownloadS3Args.t :=
  match v with
  | JObj d =>
      match as_str (dict_get "folder" d), as_str (dict_get "experiment_file" d),
            dict_get "files_names_list" d with
      | Some f, Some e, Some l =>
          match coerce_files w l with
          | Return names =>
              Return {| DownloadS3Args.folder := f;
                        DownloadS3Args.experiment_file := e;
                        DownloadS3Args.files_names_list := names |}
          | Raise ex => Raise ex
          end
      | _, _, _ => Raise ValidationError
      end
  | _ => Raise PyTypeError
  end.

Definition UploadCollectOutputArgs_new (v : json) : Result UploadCollectOutputArgs.t :=
  match v with
  | JObj d =>
      match as_str (dict_get "folder" d) with
      | Some f => Return {| UploadCollectOutputArgs.folder := f |}
      | None => Raise ValidationError
      end
  | _ => Raise PyTypeError
  end.

(** [payload["args"]], used once ["args" in payload] holds. *)
Definition payload_args (payload : dict) : json :=
  default JNull (dict_get "args" payload).

(** The block "Validate the payload against the schema" of each handler:
    flat fields, else the fields under ["args"], else a 400. *)
Definition run_request (payload : dict) : Result RunArgs.t :=
  if has_key "folder" payload && has_key "experiment_file" payload
  then RunArgs_new (JObj payload)
  else if has_key "args" payload then RunArgs_new (payload_args payload)
  else Raise (HTTPException 400 "Expected keys: folder & experiment_file").

Definition download_request {F} (w : World F) (payload : dict)
  : Result DownloadS3Args.t :=
  if has_key "folder" payload && has_key "experiment_file" payload
     && has_key "files_names_list" payload
  then DownloadS3Args_new w (JObj payload)
  else if has_key "args" payload then DownloadS3Args_new w (payload_args payload)
  else Raise (HTTPException 400
                "Expected keys: folder & experiment_file & files_names_list").

Definition upload_request (payload : dict) : Result UploadCollectOutputArgs.t :=
  if has_key "folder" payload then UploadCollectOutputArgs_new (JObj payload)
  else if has_key "args" payload then UploadCollectOutputArgs_new (payload_args payload)
  else Raise (HTTPException 400 "Expected keys: folder").

(** ** [_parse_summary] *)

(** One turn of the loop over the lines of [SUMMARY.OUT]. *)
Definition summary_line {F} (w : World F) (kpis : list (SummaryRecord.t F))
    (line : string) : list (SummaryRecord.t F) :=
  if Py.startswith "@" line || Py.is_empty (Py.strip line) then kpis
  else
    let attempt :=
      let exp_code := Py.strip (Py.slice 0 8 line) in
      let tdate := Py.strip (Py.slice 19 25 line) in
      yield_kg ← py_float w (Py.strip (Py.slice 65 72 line));
      Some (kpis ++ [{| SummaryRecord.expt := exp_code;
                        SummaryRecord.pl_date := tdate;
                        SummaryRecord.yield_kg_ha := yield_kg |}]) in
    default kpis attempt.

Definition _parse_summary {F} (w : World F) (fs : FS) (work_dir : Path)
  : option (SummaryReport.t F) :=
  let summary_file := PathLib.joinpath work_dir "SUMMARY.OUT" in
  if negb (Fs.is_file fs summary_file) then None
  else
    let kpis :=
      foldl (summary_line w) [] (Py.lines (default "" (Fs.read fs summary_file))) in
    Some {| SummaryReport.n_treatments := length kpis;
            SummaryReport.treatments := kpis |}.

(** ** The handlers of [server.py] *)

(** [if c: raise e] *)
Definition raise_if (c : bool) (e : Exn) : M unit :=
  if c then raise e else mret ().

(** The [except] clauses around [os.chdir(work_dir)], the same in the
    three handlers. *)
Definition chdir_handler (work_dir : Path) (e : Exn) : M unit :=
  match e with
  | PyOSError {| errno := ENOENT |} =>
      raise (HTTPException 404 (PathLib.str work_dir +:+ " not found"))
  | PyOSError _ => raise (HTTPException 500 (Exn_str e))
  | _ => raise e
  end.

(** The [except] clauses around [boto3.client]. *)
Definition client_handler (e : Exn) : M unit :=
  match e with
  | NoCredentialsError _ =>
      raise (RuntimeError (Text "AWS credentials are missing or invalid."))
  | EndpointConnectionError url _ =>
      raise (RuntimeError (Text ("Could not reach S3 endpoint: " +:+ url)))
  | _ => raise (RuntimeError (Text ("Failed to create S3 client: " +:+ Exn_str e)))
  end.

(** [f"S3 ClientError [{code}]: {msg}"] with the defaults of the source. *)
Definition client_error_text (e : ClientError) : string :=
  "S3 ClientError [" +:+ default "Unknown" (ce_code e) +:+ "]: "
    +:+ default (ce_text e) (ce_message e).

(** [(DATA_ROOT / folder).resolve()] *)
Definition work_dir_of (folder : string) : Path :=
  PathLib.resolve (PathLib.joinpath DATA_ROOT folder).

(** [run_dssat_experiment] after the payload is validated. *)
Definition run_steps {F} (w : World F) (args : RunArgs.t) : M (RunResult.t F) :=
  let work_dir := work_dir_of (RunArgs.folder args) in
  fs0 ← get_fs;
  _ ← raise_if (negb (Fs.is_dir fs0 work_dir) || negb (in_parents DATA_ROOT work_dir))
        (HTTPException 400 "Invalid folder");
  _ ← try (os_chdir work_dir) (chdir_handler work_dir);
  let exp_file := PathLib.joinpath work_dir (RunArgs.experiment_file args) in
  fs1 ← get_fs;
  _ ← raise_if (negb (Fs.is_file fs1 exp_file))
        (HTTPException 400 "Experiment file not found");
  let cmd := [PathLib.str DSSAT_EXE; "A"; RunArgs.experiment_file args] in
  proc ← try (run_process w cmd work_dir 600)
           (λ e, match e with
                 | TimeoutExpired => raise (HTTPException 504 "DSSAT run timed out")
                 | _ => raise e
                 end);
  fs2 ← get_fs;
  mret {| RunResult.exit_code := proc.1.1;
          RunResult.stdout := Py.tail (N.to_nat 10000) proc.1.2;
          RunResult.stderr := Py.tail (N.to_nat 10000) proc.2;
          RunResult.summary := _parse_summary w fs2 work_dir |}.

Definition run_dssat_experiment {F} (w : World F) (payload : dict)
  : M (RunResult.t F) :=
  args ← lift (run_request payload);
  run_steps w args.

(** The download loop: [errors] is the dictionary filled so far. *)
Fixpoint download_loop {F} (w : World F) (files : list string)
    (errors : gmap string string) : M (gmap string string) :=
  match files with
  | [] => mret errors
  | s3_file :: rest =>
      errors' ← try (_ ← download_file w s3_file; mret errors)
                  (λ e, match e with
                        | BotoClientError ce =>
                            mret (<[s3_file := client_error_text ce]> errors)
                        | _ =>
                            mret (<[s3_file := "Unexpected error: " +:+ Exn_str e]> errors)
                        end);
      download_loop w rest errors'
  end.

(** "Download each file from the S3 bucket" and "Check if any downloads
    failed". *)
Definition download_all {F} (w : World F) (files : list string) : M unit :=
  errors ← download_loop w files ∅;
  raise_if (bool_decide (errors ≠ ∅)) (RuntimeError (DownloadsFailed errors)).

(** [download_files_from_s3] after the payload is validated. *)
Definition download_steps {F} (w : World F) (args : DownloadS3Args.t)
  : M DownloadS3ArgsResult.t :=
  let work_dir := work_dir_of (DownloadS3Args.folder args) in
  _ ← raise_if (negb (in_parents DATA_ROOT work_dir))
        (HTTPException 400 "Invalid folder (outside DATA_ROOT)");
  _ ← try (mkdir work_dir)
        (λ e, match e with
              | PyOSError oe =>
                  raise (HTTPException 500
                           ("Failed to create directory '" +:+ PathLib.str work_dir
                              +:+ "': " +:+ strerror (errno oe)))
              | _ => raise e
              end);
  _ ← try (os_chdir work_dir) (chdir_handler work_dir);
  _ ← try (make_client w) client_handler;
  _ ← download_all w (DownloadS3Args.files_names_list args);
  let exp_file := PathLib.joinpath work_dir (DownloadS3Args.experiment_file args) in
  fs1 ← get_fs;
  _ ← raise_if (negb (Fs.is_file fs1 exp_file))
        (HTTPException 400 "Experiment file not found");
  mret {| DownloadS3ArgsResult.exit_code := 200;
          DownloadS3ArgsResult.folder_name := DownloadS3Args.folder args |}.

Definition download_files_from_s3 {F} (w : World F) (payload : dict)
  : M DownloadS3ArgsResult.t :=
  args ← lift (download_request w payload);
  download_steps w args.

(** [upload_and_collect_output_files] after the payload is validated. *)
Definition upload_steps {F} (w : World F) (args : UploadCollectOutputArgs.t)
  : M UploadCollectOutputArgsResult.t :=
  let work_dir := work_dir_of (UploadCollectOutputArgs.folder args) in
  _ ← try (os_chdir work_dir) (chdir_handler work_dir);
  _ ← try (make_client w) client_handler;
  let key := UploadCollectOutputArgs.folder args +:+ ".zip" in
  buf ← try (build_zip w work_dir)
          (λ e, raise (HTTPException 500 ("Failed to create ZIP file: " +:+ Exn_str e)));
  _ ← try (upload_fileobj w buf key)
        (λ e, match e with
              | BotoClientError ce => raise (HTTPException 500 (client_error_text ce))
              | _ => raise (HTTPException 500
                              ("Failed to upload ZIP to S3: " +:+ Exn_str e))
              end);
  _ ← try (shutil_rmtree w work_dir true)
        (λ e, match e with
              | PyOSError oe =>
                  raise (HTTPException 500
                           ("Failed to delete directory '" +:+ PathLib.str work_dir
                              +:+ "': " +:+ strerror (errno oe)))
              | _ => raise e
              end);
  url ← try (generate_presigned_url w key)
          (λ e, match e with
                | BotoClientError ce => raise (HTTPException 500 (client_error_text ce))
                | _ => raise (HTTPException 500
                                ("Failed to generate presigned URL: " +:+ Exn_str e))
                end);
  mret {| UploadCollectOutputArgsResult.exit_code := 200;
          UploadCollectOutputArgsResult.s3_presigned_url := url |}.

Definition upload_and_collect_output_files {F} (w : World F) (payload : dict)
  : M UploadCollectOutputArgsResult.t :=
  args ← lift (upload_request payload);
  upload_steps w args.

(** ** The routes [/tools/call/{tool_name}] *)

Inductive Tool := RunTool | DownloadTool | UploadTool.

Inductive Envelope (F : Type) :=
| RunEnvelope (r : RunResult.t F)
| DownloadEnvelope (r : DownloadS3ArgsResult.t)
| UploadEnvelope (r : UploadCollectOutputArgsResult.t).
Arguments RunEnvelope {F}. Arguments DownloadEnvelope {F}.
Arguments UploadEnvelope {F}.

Definition call_tool {F} (w : World F) (tool : Tool) (payload : dict)
  : M (Envelope F) :=
  match tool with
  | RunTool => r ← run_dssat_experiment w payload; mret (RunEnvelope r)
  | DownloadTool => r ← download_files_from_s3 w payload; mret (DownloadEnvelope r)
  | UploadTool => r ← upload_and_collect_output_files w payload; mret (UploadEnvelope r)
  end.

(** ** Reading the log *)

Definition is_spawn (e : Event) : bool :=
  match e with EvSpawn _ _ _ => true | _ => false end.

(** No process was started. *)
Definition no_spawn (evs : list Event) : bool := forallb (λ e, negb (is_spawn e)) evs.

(** The key of a download attempt. *)
Definition download_key (e : Event) : option string :=
  match e with EvDownload k _ => Some k | _ => None end.

(** The keys whose download failed at least once. *)
Definition failed_keys (evs : list Event) : gset string :=
  list_to_set (omap (λ e, match e with EvDownload k None => Some k | _ => None end) evs).

(** The files written by the downloads that succeeded. *)
Definition downloaded (evs : list Event) : list Path :=
  omap (λ e, match e with EvDownload _ (Some p) => Some p | _ => None end) evs.

(** ** The summary report, as the specification words it *)

(** A line that is neither a header line nor blank. *)
Definition data_line (line : string) : bool :=
  negb (Py.startswith "@" line) && negb (Py.is_empty (Py.strip line)).

(** The record of a data line: experiment code in columns 0-8, date in
    columns 19-25, yield in columns 65-72 read as a float; none when the
    yield does not read. *)
Definition parse_line {F} (w : World F) (line : string) : option (SummaryRecord.t F) :=
  match py_float w (Py.strip (Py.slice 65 72 line)) with
  | Some y => Some {| SummaryRecord.expt := Py.strip (Py.slice 0 8 line);
                      SummaryRecord.pl_date := Py.strip (Py.slice 19 25 line);
                      SummaryRecord.yield_kg_ha := y |}
  | None => None
  end.

(** The records of the lines that parse, in the order of the lines. *)
Definition parsed_records {F} (w : World F) (lines : list string)
  : list (SummaryRecord.t F) :=
  omap (parse_line w) (filter (λ l, data_line l = true) lines).

(** ** Folder names the specification rules out *)

Definition has_separator (folder : string) : bool :=
  bool_decide (2 ≤ length (Py.split "/" folder))%nat.

Definition has_parent_segment (folder : string) : bool :=
  bool_decide (".." ∈ Py.split "/" folder).

(** ** A concrete site, for examples *)

Module Demo.

(** Plain decimals: an optional sign, digits, an optional point and
    digits. The value is the pair of the digits read as an integer and
    the number of digits after the point. *)
Definition Decimal : Type := Z * nat.

Fixpoint digits (acc : Z) (s : string) : option (Z * string) :=
  match s with
  | String c s' =>
      match Ascii.is_nat c with
      | Some d => digits (10 * acc + Z.of_nat d) s'
      | None => Some (acc, s)
      end
  | EmptyString => Some (acc, s)
  end.

Definition unsigned (s : string) : option Decimal :=
  match s with
  | EmptyString => None
  | String c _ =>
      if bool_decide (is_Some (Ascii.is_nat c)) then
        match digits 0 s with
        | Some (n, EmptyString) => Some (n, 0%nat)
        | Some (n, String "." frac) =>
            match digits n frac with
            | Some (m, EmptyString) => Some (m, String.length frac)
            | _ => None
            end
        | _ => None
        end
      else None
  end.

Definition decimal_float (s : string) : option Decimal :=
  match s with
  | String "-" s' => (λ d, (- d.1, d.2)) <$> unsigned s'
  | String "+" s' => unsigned s'
  | _ => unsigned s
  end.

Definition nl : string := String "010" "".

Definition summary_text : string :=
  "@RUNNO   TNAM" +:+ nl +:+
  "SWSW7501           750325                                           3456 rest" +:+ nl +:+
  "SWSW7501           750326                                            abc rest" +:+ nl.

Definition root_dirs : list Path :=
  [["home"]; ["home"; "christos"]; ["home"; "christos"; "dssat-csm-os"];
   ["home"; "christos"; "dssat-csm-os"; "build"]; DATA_ROOT].

(** The data root with the project folders [Wheat] (one experiment file
    and a result file) and [Apple] (empty). *)
Definition site : FS :=
  <[DATA_ROOT ++ ["Wheat"; "SUMMARY.OUT"] := Fs.File summary_text]>
    (<[DATA_ROOT ++ ["Wheat"; "SWSW7501.WHX"] := Fs.File "*EXP.DETAILS"]>
       (foldr (λ p m, <[p := Fs.Dir]> m) ∅
          (root_dirs ++ [DATA_ROOT ++ ["Wheat"]; DATA_ROOT ++ ["Apple"]]))).

Definition start : State := {| fs := site; cwd := []; log := [] |}.

Definition no_such_key : ClientError :=
  {| ce_code := Some "404"; ce_message := Some "Not Found";
     ce_text := "An error occurred (404) when calling the HeadObject operation: Not Found" |}.

(** A world whose process behaves as [proc], where the paths [refused]
    cannot be removed, and where every object exists but [missing.WTH]. *)
Definition world (proc : FS → RunOutcome) (refused : Path → bool) : World Decimal :=
  {| py_float := decimal_float;
     list_literal := λ _, inl PyTypeError;
     boto3_client := None;
     s3_object := λ k, if decide (k = "missing.WTH")
                       then inl (BotoClientError no_such_key)
                       else inr ("object " +:+ k);
     s3_upload := λ _ _, None;
     s3_presign := λ k, inr ("https://bucket.s3.amazonaws.com/" +:+ k);
     subprocess_run := λ _ _ _ fs, proc fs;
     rm_refused := refused;
     read_refused := λ _, false |}.

(** The system refuses to remove the result file of [Wheat]. *)
Definition summary_is_kept (p : Path) : bool :=
  bool_decide (p = DATA_ROOT ++ ["Wheat"; "SUMMARY.OUT"]).

Definition exits_with (rc : Z) (out err : string) (fs : FS) : RunOutcome :=
  Completed rc out err fs.

Definition hangs (fs : FS) : RunOutcome := Expired fs.

Definition quiet : World Decimal := world (exits_with 0 "" "") (λ _, false).

(** The same world, where the result file of [Wheat] cannot be removed. *)
Definition stubborn : World Decimal := world (exits_with 0 "" "") summary_is_kept.

Definition run_payload (folder file : string) : dict :=
  [("folder", JStr folder); ("experiment_file", JStr file)].

Definition download_payload (folder file : string) (names : list string) : dict :=
  [("folder", JStr folder); ("experiment_file", JStr file);
   ("files_names_list", JArr (JStr <$> names))].

Definition upload_payload (folder : string) : dict := [("folder", JStr folder)].

(** [n] times the character [c]. *)
Fixpoint chars (n : nat) (c : ascii) : string :=
  match n with O => EmptyString | S n' => String c (chars n' c) end.

(** A stream of 10,004 characters. *)
Definition long_stdout : string := "head" +:+ chars (N.to_nat 10000) "x".

End Demo.

(** ** Notions used in the statements *)

(** The state after the handler has entered [work_dir]. *)
Definition entered (work_dir : Path) (st : State) : State :=
  record (EvChdir work_dir) (set_cwd work_dir st).

(** The command line of [run_dssat_experiment]. *)
Definition run_cmd (args : RunArgs.t) : list string :=
  [PathLib.str DSSAT_EXE; "A"; RunArgs.experiment_file args].

(** The state in which the downloads of [download_files_from_s3] start:
    the directory made, then entered. *)
Definition staged (work_dir : Path) (fs1 : FS) (st : State) : State :=
  entered work_dir (record (EvMkdir work_dir) (set_fs fs1 st)).

(** The payload [{"args": a}]. *)
Definition wrap_args (a : dict) : dict := [("args", JObj a)].

Definition is_return {A} (r : Result A) : bool :=
  match r with Return _ => true | Raise _ => false end.

(** The argument object [a] passes the schema of the tool. *)
Definition well_formed {F} (w : World F) (tool : Tool) (a : dict) : bool :=
  match tool with
  | RunTool => is_return (RunArgs_new (JObj a))
  | DownloadTool => is_return (DownloadS3Args_new w (JObj a))
  | UploadTool => is_return (UploadCollectOutputArgs_new (JObj a))
  end.

(** The payload has the fields of the tool at its top level. *)
Definition flat_shape (tool : Tool) (payload : dict) : bool :=
  match tool with
  | RunTool => has_key "folder" payload && has_key "experiment_file" payload
  | DownloadTool =>
      has_key "folder" payload && has_key "experiment_file" payload
      && has_key "files_names_list" payload
  | UploadTool => has_key "folder" payload
  end.

(** The payload has the wrapper field. *)
Definition nested_shape (payload : dict) : bool := has_key "args" payload.

Definition expected_keys (tool : Tool) : string :=
  match tool with
  | RunTool => "Expected keys: folder & experiment_file"
  | DownloadTool => "Expected keys: folder & experiment_file & files_names_list"
  | UploadTool => "Expected keys: folder"
  end.

(** The typed request a payload is normalised to. *)
Inductive Request :=
| RunRequest (args : RunArgs.t)
| FetchInputsRequest (args : DownloadS3Args.t)
| CollectOutputsRequest (args : UploadCollectOutputArgs.t).

Definition normalize {F} (w : World F) (tool : Tool) (payload : dict) : Result Request :=
  match tool with
  | RunTool =>
      match run_request payload with
      | Return a => Return (RunRequest a) | Raise e => Raise e
      end
  | DownloadTool =>
      match download_request w payload with
      | Return a => Return (FetchInputsRequest a) | Raise e => Raise e
      end
  | UploadTool =>
      match upload_request payload with
      | Return a => Return (CollectOutputsRequest a) | Raise e => Raise e
      end
  end.

(** The details of the 500 errors of [upload_and_collect_output_files]. *)
Definition upload_failure_text (e : Exn) : string :=
  match e with
  | BotoClientError ce => client_error_text ce
  | _ => "Failed to upload ZIP to S3: " +:+ Exn_str e
  end.

Definition presign_failure_text (e : Exn) : string :=
  match e with
  | BotoClientError ce => client_error_text ce
  | _ => "Failed to generate presigned URL: " +:+ Exn_str e
  end.

(** The state after the archive is stored and the directory removed. *)
Definition collected {F} (w : World F) (work_dir : Path) (key : string)
    (buf : Archive) (st : State) : State :=
  let st1 := record (EvUpload key buf) (entered work_dir st) in
  record (EvRmtree work_dir) (set_fs (Fs.rmtree (rm_refused w) (fs st1) work_dir) st1).

(** The text of the [RuntimeError] that [client_handler] raises. *)
Definition client_failure_text (e : Exn) : string :=
  match e with
  | NoCredentialsError _ => "AWS credentials are missing or invalid."
  | EndpointConnectionError url _ => "Could not reach S3 endpoint: " +:+ url
  | _ => "Failed to create S3 client: " +:+ Exn_str e
  end.

Module FsRel.

(** [fs'] keeps every directory of [fs] a directory and every file a
    file (its content may have changed). *)
Definition grows (fs fs' : FS) : Prop :=
  ∀ p, match Fs.node_at fs p with
       | Some Fs.Dir => Fs.node_at fs' p = Some Fs.Dir
       | Some (Fs.File _) => ∃ c, Fs.node_at fs' p = Some (Fs.File c)
       | None => True
       end.

(** [p] is reached under its own name: every proper ancestor is a
    directory and no component is [..]. *)
Definition named (fs : FS) (p : Path) : Prop := Fs.walk fs [] p = inr p.

End FsRel.

Ltac run_m :=
  unfold mbind, M_bind, bind, try, lift, mret, M_ret, ret, raise, raise_if, get_fs.

(** ** Single-segment names *)

(** [c in s] for a character [c]. *)
Fixpoint str_contains (c : ascii) (s : string) : bool :=
  match s with
  | EmptyString => false
  | String c' s' => Ascii.eqb c' c || str_contains c s'
  end.

(** A single path segment: no separator in it, and not the empty name,
    [.] or [..]. *)
Definition plain_name (s : string) : bool :=
  negb (str_contains "/" s) && bool_decide (s ≠ "" ∧ s ≠ "." ∧ s ≠ "..").

(** ** [auth0_utils.py]: [VerifyToken.verify] *)

(** What the PyJWT calls raise: the two classes that [verify] names in its
    first [except] clauses, and any other exception. *)
Inductive JwtError :=
| PyJWKClientError (text : string)
| DecodeError (text : string)
| OtherJwtError (text : string).

(** [str(error)] *)
Definition JwtError_str (e : JwtError) : string :=
  match e with
  | PyJWKClientError t | DecodeError t | OtherJwtError t => t
  end.

(** The PyJWT side of [VerifyToken]: the key set client and [jwt.decode]
    with the configured algorithms, audience and issuer. *)
Record Jwt (Key Claims : Type) := {
  (** [jwks_client.get_signing_key_from_jwt(credentials).key] *)
  get_signing_key_from_jwt : string → JwtError + Key;
  (** [jwt.decode(credentials, signing_key, algorithms=..., audience=...,
      issuer=...)] *)
  jwt_decode : string → Key → JwtError + Claims;
}.
Arguments get_signing_key_from_jwt {Key Claims}.
Arguments jwt_decode {Key Claims}.

(** [UnauthenticatedException()] and [UnauthorizedException(detail)] *)
Definition UnauthenticatedException : Exn :=
  HTTPException 401 "Requires authentication".
Definition UnauthorizedException (detail : string) : Exn :=
  HTTPException 403 detail.

(** [VerifyToken.verify(security_scopes, token)]; [token] is [None] or the
    credentials of the bearer header. *)
Definition verify {Key Claims} (jwt : Jwt Key Claims)
    (security_scopes : list string) (token : option string) : Result Claims :=
  match token with
  | None => Raise UnauthenticatedException
  | Some credentials =>
      match get_signing_key_from_jwt jwt credentials with
      | inl (PyJWKClientError t) => Raise (UnauthorizedException t)
      | inl (DecodeError t) => Raise (UnauthorizedException t)
      | inl (OtherJwtError t) => Raise (OtherException t)
      | inr signing_key =>
          match jwt_decode jwt credentials signing_key with
          | inl error => Raise (UnauthorizedException (JwtError_str error))
          | inr payload => Return payload
          end
      end
  end.

(** A route declared with [token = Security(auth.verify)]: the dependency
    is evaluated first, and the body runs only when it returns. *)
Definition secured {Key Claims A} (jwt : Jwt Key Claims) (token : option string)
    (body : M A) : M A :=
  match verify jwt [] token with
  | Return _ => body
  | Raise e => raise e
  end.

Module DemoAuth.

(** A key set with the one key id ["kid1"]; credentials are written
    ["kid:subject"], and only the subject ["alice"] decodes. *)
Definition jwt : Jwt string string :=
  {| get_signing_key_from_jwt := λ c,
       if String.prefix "kid1:" c then inr "key1"
       else inl (PyJWKClientError "Unable to find a signing key that matches");
     jwt_decode := λ c k,
       if decide (c = "kid1:alice") then inr "alice"
       else inl (DecodeError "Signature verification failed") |}.

End DemoAuth.

(** * Properties *)

(** ** Strings and paths *)





Lemma tail_short n s : (String.length s ≤ n)%nat → Py.tail n s = s.
Proof.
  intros H. unfold Py.tail.
  replace (String.length s - n)%nat with 0%nat by lia. by destruct s.
Qed.

Lemma elem_of_parents (root p : Path) :
  root ∈ PathLib.parents p ↔ root `prefix_of` p ∧ root ≠ p.
Proof.
  unfold PathLib.parents. rewrite list_elem_of_fmap. split.
  - intros (i & -> & Hi). apply elem_of_reverse, elem_of_seq in Hi.
    split; [apply prefix_take|].
    intros Heq. apply (f_equal length) in Heq. rewrite length_take in Heq. lia.
  - intros [[k ->] Hne]. exists (length root). split.
    + by rewrite take_app_length.
    + apply elem_of_reverse, elem_of_seq. rewrite length_app.
      destruct k; [by rewrite app_nil_r in Hne|]. simpl. lia.
Qed.

Lemma in_parents_spec (root p : Path) :
  in_parents root p = true ↔ root `prefix_of` p ∧ root ≠ p.
Proof.
  unfold in_parents. rewrite bool_decide_eq_true. apply elem_of_parents.
Qed.

Lemma joinpath_plain_name (p : Path) :
  PathLib.joinpath p "SUMMARY.OUT" = p ++ ["SUMMARY.OUT"].
Proof. reflexivity. Qed.

(** ** The summary parser *)

Lemma summary_line_spec {F} (w : World F) kpis line :
  summary_line w kpis line =
  kpis ++ (if data_line line then option_list (parse_line w line) else []).
Proof.
  unfold summary_line, data_line, parse_line.
  destruct (Py.startswith "@" line); simpl; [by rewrite app_nil_r|].
  destruct (Py.is_empty (Py.strip line)); simpl; [by rewrite app_nil_r|].
  destruct (py_float w _); simpl; [done|by rewrite app_nil_r].
Qed.

Lemma summary_loop_spec {F} (w : World F) lines kpis :
  foldl (summary_line w) kpis lines = kpis ++ parsed_records w lines.
Proof.
  revert kpis. induction lines as [|line lines IH]; intros kpis; simpl.
  - by rewrite app_nil_r.
  - rewrite IH, summary_line_spec, <- app_assoc. f_equal.
    unfold parsed_records. rewrite filter_cons.
    destruct (data_line line) eqn:Hd.
    + rewrite decide_True by done. simpl. by destruct (parse_line w line).
    + rewrite decide_False by done. done.
Qed.


(** The example of the specification: one header line, one well-formed
    line and one line whose yield is not a number give one treatment. *)
Example parse_summary_demo :
  _parse_summary Demo.quiet Demo.site (work_dir_of "Wheat") =
  Some {| SummaryReport.n_treatments := 1;
          SummaryReport.treatments :=
            [{| SummaryRecord.expt := "SWSW7501";
                SummaryRecord.pl_date := "750325";
                SummaryRecord.yield_kg_ha := (3456, 0%nat) |}] |}.
Proof. vm_compute. reflexivity. Qed.

(** ** Running an experiment *)

Lemma run_after_request {F} (w : World F) payload args st :
  run_request payload = Return args →
  run_dssat_experiment w payload st = run_steps w args st.
Proof. intros H. unfold run_dssat_experiment. run_m. by rewrite H. Qed.

Lemma chdir_to_directory p st :
  Fs.is_dir (fs st) p = true →
  os_chdir p st = (Return (), record (EvChdir p) (set_cwd p st)).
Proof.
  unfold Fs.is_dir, os_chdir. by destruct (Fs.stat (fs st) p) as [?|[]].
Qed.

Lemma run_steps_invalid {F} (w : World F) args st :
  Fs.is_dir (fs st) (work_dir_of (RunArgs.folder args)) = false
  ∨ in_parents DATA_ROOT (work_dir_of (RunArgs.folder args)) = false →
  run_steps w args st = (Raise (HTTPException 400 "Invalid folder"), st).
Proof.
  intros H. unfold run_steps. run_m. simpl.
  by destruct H as [-> | ->]; rewrite ?orb_true_r.
Qed.

Lemma run_steps_no_file {F} (w : World F) args st :
  let work_dir := work_dir_of (RunArgs.folder args) in
  Fs.is_dir (fs st) work_dir = true →
  in_parents DATA_ROOT work_dir = true →
  Fs.is_file (fs st) (PathLib.joinpath work_dir (RunArgs.experiment_file args)) = false →
  run_steps w args st =
  (Raise (HTTPException 400 "Experiment file not found"), entered work_dir st).
Proof.
  intros work_dir Hd Hp Hf. unfold run_steps. run_m. simpl.
  fold work_dir. rewrite Hd, Hp. simpl.
  rewrite (chdir_to_directory _ _ Hd). simpl. by rewrite Hf.
Qed.

Lemma run_steps_spawn {F} (w : World F) args st :
  let work_dir := work_dir_of (RunArgs.folder args) in
  Fs.is_dir (fs st) work_dir = true →
  in_parents DATA_ROOT work_dir = true →
  Fs.is_file (fs st) (PathLib.joinpath work_dir (RunArgs.experiment_file args)) = true →
  run_steps w args st =
  let st1 := record (EvSpawn (run_cmd args) work_dir 600) (entered work_dir st) in
  match subprocess_run w (run_cmd args) work_dir 600 (fs st) with
  | Completed rc out err fs' =>
      (Return {| RunResult.exit_code := rc;
                 RunResult.stdout := Py.tail (N.to_nat 10000) out;
                 RunResult.stderr := Py.tail (N.to_nat 10000) err;
                 RunResult.summary := _parse_summary w fs' work_dir |},
       set_fs fs' st1)
  | Expired fs' => (Raise (HTTPException 504 "DSSAT run timed out"), set_fs fs' st1)
  | LaunchFailed e => (Raise (PyOSError e), st1)
  end.
Proof.
  intros work_dir Hd Hp Hf. unfold run_steps. run_m. simpl.
  fold work_dir. rewrite Hd, Hp. simpl.
  rewrite (chdir_to_directory _ _ Hd). simpl. rewrite Hf. simpl.
  unfold run_process, run_cmd. simpl.
  by destruct (subprocess_run w _ work_dir 600 (fs st)).
Qed.



(** C3. When the process started by [run_dssat_experiment] outlives the
    600 seconds given to [subprocess.run], the handler fails with 504
    "DSSAT run timed out": it raises and returns no result. *)
Theorem timeout_gives_504 {F} (w : World F) payload args st fs' :
  run_request payload = Return args →
  Fs.is_dir (fs st) (work_dir_of (RunArgs.folder args)) = true →
  in_parents DATA_ROOT (work_dir_of (RunArgs.folder args)) = true →
  Fs.is_file (fs st)
    (PathLib.joinpath (work_dir_of (RunArgs.folder args))
       (RunArgs.experiment_file args)) = true →
  subprocess_run w (run_cmd args) (work_dir_of (RunArgs.folder args)) 600 (fs st)
    = Expired fs' →
  (run_dssat_experiment w payload st).1
    = Raise (HTTPException 504 "DSSAT run timed out")
  ∧ ∀ r, (run_dssat_experiment w payload st).1 ≠ Return r.
Proof.
  intros Hreq Hd Hp Hf Hrun.
  rewrite (run_after_request _ _ _ _ Hreq), (run_steps_spawn w args st Hd Hp Hf).
  simpl. rewrite Hrun. by split.
Qed.

Lemma timeout_witness :
  (run_dssat_experiment (Demo.world Demo.hangs (λ _, false))
     (Demo.run_payload "Wheat" "SWSW7501.WHX") Demo.start).1
    = Raise (HTTPException 504 "DSSAT run timed out")
  ∧ ∀ r, (run_dssat_experiment (Demo.world Demo.hangs (λ _, false))
            (Demo.run_payload "Wheat" "SWSW7501.WHX") Demo.start).1 ≠ Return r.
Proof.
  apply (timeout_gives_504 (Demo.world Demo.hangs (λ _, false))
           (Demo.run_payload "Wheat" "SWSW7501.WHX")
           {| RunArgs.folder := "Wheat"; RunArgs.experiment_file := "SWSW7501.WHX" |}
           Demo.start Demo.site); vm_compute; reflexivity.
Defined.



(** A stream of 10,004 characters loses exactly its first four. *)
Example long_stream_tail :
  Py.tail (N.to_nat 10000) Demo.long_stdout = Demo.chars (N.to_nat 10000) "x".
Proof. vm_compute. reflexivity. Qed.

(** ** The file system *)

Section fs_lemmas.
Import FsRel.
Implicit Types (fs : FS) (p q cur : Path) (cs : list string).

Lemma grows_refl fs : grows fs fs.
Proof. intros p. destruct (Fs.node_at fs p) as [[c|]|]; eauto. Qed.

Lemma grows_trans fs1 fs2 fs3 : grows fs1 fs2 → grows fs2 fs3 → grows fs1 fs3.
Proof.
  intros H12 H23 p. specialize (H12 p). specialize (H23 p).
  destruct (Fs.node_at fs1 p) as [[c|]|]; [| |done].
  - destruct H12 as [c' H12]. by rewrite H12 in H23.
  - by rewrite H12 in H23.
Qed.

Lemma node_at_insert_ne fs p q n :
  p ≠ q → p ≠ [] → Fs.node_at (<[p := n]> fs) q = Fs.node_at fs q.
Proof.
  intros Hne Hp. destruct q; [done|]. simpl. by rewrite lookup_insert_ne.
Qed.

Lemma node_at_insert_eq fs p n :
  p ≠ [] → Fs.node_at (<[p := n]> fs) p = Some n.
Proof. intros Hp. destruct p; [done|]. simpl. by rewrite lookup_insert_eq. Qed.

(** Writing a file or making a directory where no directory was. *)
Lemma grows_insert fs p n :
  p ≠ [] →
  (n = Fs.Dir ∧ Fs.node_at fs p = None) ∨
  ((∃ c, n = Fs.File c) ∧ Fs.node_at fs p ≠ Some Fs.Dir) →
  grows fs (<[p := n]> fs).
Proof.
  intros Hp Hn q. destruct (decide (p = q)) as [<-|Hne].
  - rewrite node_at_insert_eq by done.
    destruct Hn as [[-> ->]|[[c ->] Hd]]; [done|].
    destruct (Fs.node_at fs p) as [[c'|]|]; eauto. done.
  - rewrite node_at_insert_ne by done.
    destruct (Fs.node_at fs q) as [[c'|]|]; eauto.
Qed.

Lemma walk_grows fs fs' cur cs q :
  grows fs fs' → Fs.walk fs cur cs = inr q → Fs.walk fs' cur cs = inr q.
Proof.
  intros Hg. revert cur. induction cs as [|c cs IH]; intros cur; simpl; [done|].
  specialize (Hg cur). destruct (Fs.node_at fs cur) as [[?|]|]; try done.
  rewrite Hg. apply IH.
Qed.

Lemma is_dir_grows fs fs' p :
  grows fs fs' → Fs.is_dir fs p = true → Fs.is_dir fs' p = true.
Proof.
  intros Hg. unfold Fs.is_dir, Fs.stat.
  destruct (Fs.walk fs [] p) as [|q] eqn:Hw; [done|].
  rewrite (walk_grows _ _ _ _ _ Hg Hw). specialize (Hg q).
  destruct (Fs.node_at fs q) as [[?|]|]; try done. by rewrite Hg.
Qed.

Lemma is_file_grows fs fs' p :
  grows fs fs' → Fs.is_file fs p = true → Fs.is_file fs' p = true.
Proof.
  intros Hg. unfold Fs.is_file, Fs.stat.
  destruct (Fs.walk fs [] p) as [|q] eqn:Hw; [done|].
  rewrite (walk_grows _ _ _ _ _ Hg Hw). specialize (Hg q).
  destruct (Fs.node_at fs q) as [[?|]|]; try done.
  destruct Hg as [c' ->]. done.
Qed.

Lemma walk_app fs cur xs ys :
  Fs.walk fs cur (xs ++ ys) =
  match Fs.walk fs cur xs with inl e => inl e | inr q => Fs.walk fs q ys end.
Proof.
  revert cur. induction xs as [|x xs IH]; intros cur; simpl; [done|].
  destruct (Fs.node_at fs cur) as [[?|]|]; auto.
Qed.

Lemma not_elem_of_removelast (x : string) (l : list string) :
  x ∉ l → x ∉ removelast l.
Proof.
  intros Hx Hin. apply Hx. destruct (decide (l = [])) as [->|Hl]; [done|].
  rewrite (app_removelast_last "" Hl). apply elem_of_app. by left.
Qed.

Lemma not_elem_of_snoc (x c : string) (l : list string) :
  x ∉ l → c ≠ x → x ∉ l ++ [c].
Proof.
  intros Hl Hc [Hin|Hin%list_elem_of_singleton]%elem_of_app; [done|].
  by apply Hc.
Qed.

Lemma walk_plain_result fs cur cs q :
  ".." ∉ cur → Fs.walk fs cur cs = inr q → ".." ∉ q.
Proof.
  revert cur. induction cs as [|c cs IH]; intros cur Hcur; simpl.
  - by intros [= <-].
  - destruct (Fs.node_at fs cur) as [[?|]|]; try done. apply IH.
    case_decide; [by apply not_elem_of_removelast|].
    by apply not_elem_of_snoc.
Qed.

Lemma walk_plain fs cur cs q :
  ".." ∉ cs → Fs.walk fs cur cs = inr q → q = cur ++ cs.
Proof.
  revert cur. induction cs as [|c cs IH]; intros cur Hcs; simpl.
  - intros [= <-]. by rewrite app_nil_r.
  - destruct (Fs.node_at fs cur) as [[?|]|]; try done.
    apply not_elem_of_cons in Hcs as [Hc Hcs].
    rewrite decide_False by done. intros Hw.
    rewrite (IH _ Hcs Hw). by rewrite <- app_assoc.
Qed.

Lemma named_plain fs p : named fs p → ".." ∉ p.
Proof. intros H. apply (walk_plain_result fs [] p p); [|done]. apply not_elem_of_nil. Qed.

Lemma named_nil fs : named fs [].
Proof. done. Qed.

Lemma named_step fs cur c :
  named fs cur → Fs.node_at fs cur = Some Fs.Dir → c ≠ ".." →
  named fs (cur ++ [c]).
Proof.
  unfold named. intros Hn Hd Hc. rewrite walk_app, Hn. simpl.
  by rewrite Hd, decide_False.
Qed.

Lemma named_parent fs p : named fs p → named fs (PathLib.parent p).
Proof.
  unfold PathLib.parent. intros Hn.
  destruct (decide (p = [])) as [->|Hp]; [done|].
  pose proof (named_plain _ _ Hn) as Hplain.
  rewrite (app_removelast_last "" Hp) in Hn, Hplain.
  set (pre := removelast p) in *. set (x := List.last p "") in *.
  unfold named in *. rewrite walk_app in Hn.
  destruct (Fs.walk fs [] pre) as [|q] eqn:Hw; [done|].
  assert (q = pre) as ->.
  { rewrite (walk_plain fs [] pre q); [done| |done].
    intros Hin. apply Hplain, elem_of_app. by left. }
  done.
Qed.

Lemma walk_named fs cur cs d :
  named fs cur → Fs.walk fs cur cs = inr d → named fs d.
Proof.
  revert cur. induction cs as [|c cs IH]; intros cur Hn; simpl.
  - by intros [= <-].
  - destruct (Fs.node_at fs cur) as [[?|]|] eqn:Hd; try done.
    apply IH. case_decide; [by apply named_parent|by apply named_step].
Qed.

Lemma stat_named fs p :
  named fs p →
  Fs.stat fs p = match Fs.node_at fs p with Some n => inr n | None => inl ENOENT end.
Proof. unfold named, Fs.stat. by intros ->. Qed.

Lemma is_dir_named fs p :
  ".." ∉ p → Fs.is_dir fs p = true →
  named fs p ∧ Fs.node_at fs p = Some Fs.Dir.
Proof.
  unfold Fs.is_dir, Fs.stat, named. intros Hp.
  destruct (Fs.walk fs [] p) as [|q] eqn:Hw; [done|].
  apply walk_plain in Hw as ->; [|done]. simpl.
  destruct (Fs.node_at fs p) as [[?|]|]; done.
Qed.

Lemma resolve_from_plain (p acc : Path) :
  ".." ∉ acc →
  ".." ∉ foldl (λ acc c, if decide (c = "..") then PathLib.parent acc
                          else acc ++ [c]) acc p.
Proof.
  revert acc. induction p as [|c p IH]; intros acc Hacc; simpl; [done|].
  apply IH. case_decide; [by apply not_elem_of_removelast|].
  by apply not_elem_of_snoc.
Qed.

Lemma resolve_plain (p : Path) : ".." ∉ PathLib.resolve p.
Proof. apply resolve_from_plain, not_elem_of_nil. Qed.

End fs_lemmas.

(** ** Downloads *)

Section download_lemmas.
Import FsRel.
Context {F : Type} (w : World F).

Lemma target_spec (fs : FS) cwd name p :
  named fs cwd →
  Fs.target fs cwd name = inr p →
  ∃ d b, p = d ++ [b] ∧ b ≠ ".." ∧ named fs d
         ∧ Fs.node_at fs d = Some Fs.Dir ∧ Fs.node_at fs p ≠ Some Fs.Dir.
Proof.
  intros Hcwd. unfold Fs.target.
  destruct (Fs.walk fs cwd _) as [|d] eqn:Hw; [done|].
  destruct (Fs.node_at fs d) as [[?|]|] eqn:Hd;
    destruct (last (Py.split "/" name)) as [b|]; try done.
  case_decide as Hb; [done|].
  destruct (Fs.node_at fs (d ++ [b])) as [[c|]|] eqn:Hn; [|done|];
    intros [= <-]; exists d, b; rewrite Hn;
    repeat split; eauto using walk_named; naive_solver.
Qed.

Lemma create_spec (fs : FS) cwd name content p fs' :
  named fs cwd →
  Fs.create fs cwd name content = inr (p, fs') →
  grows fs fs' ∧ Fs.is_file fs' p = true.
Proof.
  intros Hcwd. unfold Fs.create.
  destruct (Fs.target fs cwd name) as [|q] eqn:Ht; [done|].
  intros [= <- <-].
  destruct (target_spec _ _ _ _ Hcwd Ht) as (d & b & -> & Hb & Hnd & Hd & Hp).
  assert (d ++ [b] ≠ []) as Hne by (by destruct d).
  assert (grows fs (<[d ++ [b] := Fs.File content]> fs)) as Hg.
  { apply grows_insert; [done|]. right. eauto. }
  split; [done|].
  assert (named (<[d ++ [b] := Fs.File content]> fs) (d ++ [b])) as Hnamed.
  { apply named_step; [by eapply walk_grows| |done].
    specialize (Hg d). by rewrite Hd in Hg. }
  unfold Fs.is_file. rewrite (stat_named _ _ Hnamed).
  by rewrite node_at_insert_eq.
Qed.

(** One download either writes a file and logs where, or raises and
    leaves the file system as it was. *)
Lemma download_file_spec key st :
  (∃ p fs', download_file w key st
            = (Return (), record (EvDownload key (Some p)) (set_fs fs' st))
          ∧ (named (fs st) (cwd st) → grows (fs st) fs' ∧ Fs.is_file fs' p = true))
  ∨ (∃ e, download_file w key st = (Raise e, record (EvDownload key None) st)).
Proof.
  unfold download_file. destruct (s3_object w key) as [e|body]; [right; eauto|].
  destruct (Fs.create _ _ _ _) as [e|[p fs']] eqn:Hc; [right; eauto|].
  left. exists p, fs'. split; [done|]. intros Hn. by eapply create_spec.
Qed.

Lemma failed_keys_app evs1 evs2 :
  failed_keys (evs1 ++ evs2) = failed_keys evs1 ∪ failed_keys evs2.
Proof. unfold failed_keys. by rewrite omap_app, list_to_set_app_L. Qed.

(** The loop never raises; it makes one attempt per name, in order;
    the dictionary gains exactly the names whose attempt failed; what
    was on disk stays, and every file written is there at the end. *)
Lemma download_loop_spec files errors st :
  ∃ errors' fs' evs,
    download_loop w files errors st
    = (Return errors', {| fs := fs'; cwd := cwd st; log := log st ++ evs |})
    ∧ omap download_key evs = files
    ∧ length evs = length files
    ∧ dom errors' = dom errors ∪ failed_keys evs
    ∧ (named (fs st) (cwd st) →
       grows (fs st) fs' ∧ Forall (λ p, Fs.is_file fs' p = true) (downloaded evs)).
Proof.
  revert errors st. induction files as [|key files IH]; intros errors st.
  - exists errors, (fs st), []. rewrite app_nil_r. destruct st. simpl.
    split_and!; [done|done|done| |].
    + unfold failed_keys. simpl. by rewrite union_empty_r_L.
    + intros _. split; [apply grows_refl|constructor].
  - simpl. run_m.
    destruct (download_file_spec key st) as [(p & fs1 & -> & Hfs)|[e ->]].
    + destruct (IH errors (record (EvDownload key (Some p)) (set_fs fs1 st)))
        as (errors' & fs' & evs & -> & Hkeys & Hlen & Hdom & Hfs').
      exists errors', fs', (EvDownload key (Some p) :: evs).
      cbn [fs cwd log record set_fs] in *.
      rewrite <- app_assoc. split_and!.
      * done.
      * cbn. f_equal. exact Hkeys.
      * cbn. by rewrite Hlen.
      * done.
      * intros Hn. destruct (Hfs Hn) as [Hg1 Hp].
        destruct Hfs' as [Hg2 Hall]; [by eapply walk_grows|].
        split; [by eapply grows_trans|].
        change (downloaded (EvDownload key (Some p) :: evs))
          with (p :: downloaded evs).
        constructor; [by eapply is_file_grows|done].
    + set (reason := match e with
                     | BotoClientError ce => client_error_text ce
                     | _ => "Unexpected error: " +:+ Exn_str e
                     end).
      destruct (IH (<[key := reason]> errors) (record (EvDownload key None) st))
        as (errors' & fs' & evs & Hrun & Hkeys & Hlen & Hdom & Hfs').
      exists errors', fs', (EvDownload key None :: evs).
      cbn [fs cwd log record set_fs] in *.
      rewrite <- app_assoc in Hrun. split_and!.
      * subst reason. destruct e; exact Hrun.
      * cbn. f_equal. exact Hkeys.
      * cbn. by rewrite Hlen.
      * rewrite Hdom, dom_insert_L.
        change (failed_keys (EvDownload key None :: evs))
          with ({[key]} ∪ failed_keys evs).
        by rewrite (assoc_L (∪)), (comm_L (∪) {[key]}).
      * done.
Qed.

End download_lemmas.


(** The example of the specification: of three names the second fails;
    the third is still fetched and only the second is reported. *)
Example download_all_demo :
  download_all Demo.quiet ["SWSW7501.WHX"; "missing.WTH"; "SOIL.SOL"]
    (entered (work_dir_of "Wheat") Demo.start)
  = (Raise (RuntimeError (DownloadsFailed
              {[ "missing.WTH" := "S3 ClientError [404]: Not Found" ]})),
     {| fs := <[work_dir_of "Wheat" ++ ["SOIL.SOL"] := Fs.File "object SOIL.SOL"]>
                (<[work_dir_of "Wheat" ++ ["SWSW7501.WHX"]
                     := Fs.File "object SWSW7501.WHX"]> Demo.site);
        cwd := work_dir_of "Wheat";
        log := [EvChdir (work_dir_of "Wheat");
                EvDownload "SWSW7501.WHX" (Some (work_dir_of "Wheat" ++ ["SWSW7501.WHX"]));
                EvDownload "missing.WTH" None;
                EvDownload "SOIL.SOL" (Some (work_dir_of "Wheat" ++ ["SOIL.SOL"]))] |}).
Proof. vm_compute. reflexivity. Qed.

(** ** Fetching inputs *)

Section fetch_lemmas.
Import FsRel.
Context {F : Type} (w : World F).

Lemma mkdir_from_spec cs : ∀ (fs fs' : FS) cur,
  ".." ∉ cs → named fs cur → Fs.node_at fs cur = Some Fs.Dir →
  Fs.mkdir_from fs cur cs = inr fs' →
  grows fs fs' ∧ named fs' (cur ++ cs) ∧ Fs.node_at fs' (cur ++ cs) = Some Fs.Dir.
Proof.
  induction cs as [|c cs IH]; intros fs fs' cur Hcs Hn Hd; simpl.
  - intros [= <-]. rewrite app_nil_r. auto using grows_refl.
  - apply not_elem_of_cons in Hcs as [Hc Hcs].
    replace (cur ++ c :: cs) with ((cur ++ [c]) ++ cs) by by rewrite <- app_assoc.
    assert (cur ++ [c] ≠ []) as Hne by (by destruct cur).
    destruct (Fs.node_at fs (cur ++ [c])) as [[?|]|] eqn:Hnxt; [done| |].
    + apply IH; [done| |done]. apply named_step; naive_solver.
    + intros Hmk.
      assert (grows fs (<[cur ++ [c] := Fs.Dir]> fs)) as Hg
        by (apply grows_insert; auto).
      destruct (IH (<[cur ++ [c] := Fs.Dir]> fs) fs' (cur ++ [c])) as (Hg' & ? & ?);
        [done| | |done|].
      * apply named_step; [by eapply walk_grows| |naive_solver].
        specialize (Hg cur). by rewrite Hd in Hg.
      * by rewrite node_at_insert_eq.
      * split; [by eapply grows_trans|done].
Qed.

(** [mkdir(parents=True, exist_ok=True)] keeps what is there and leaves
    a directory at the resolved path. *)
Lemma mkdir_parents_spec (fs fs' : FS) p :
  ".." ∉ p → Fs.mkdir_parents fs p = inr fs' →
  grows fs fs' ∧ named fs' p ∧ Fs.is_dir fs' p = true.
Proof.
  intros Hp Hmk.
  destruct (mkdir_from_spec p fs fs' [] Hp (named_nil fs) eq_refl Hmk)
    as (Hg & Hn & Hd). simpl in *.
  split_and!; [done|done|]. unfold Fs.is_dir. by rewrite (stat_named _ _ Hn), Hd.
Qed.

Lemma client_handler_raises e st :
  client_handler e st = (Raise (RuntimeError (Text (client_failure_text e))), st).
Proof. by destruct e. Qed.

(** The course of [download_files_from_s3] once the payload is valid. *)
Lemma download_steps_cases (args : DownloadS3Args.t) st :
  let work_dir := work_dir_of (DownloadS3Args.folder args) in
  download_steps w args st =
  if in_parents DATA_ROOT work_dir then
    match Fs.mkdir_parents (fs st) work_dir with
    | inl oe =>
        (Raise (HTTPException 500
                  ("Failed to create directory '" +:+ PathLib.str work_dir
                     +:+ "': " +:+ strerror (errno oe))), st)
    | inr fs1 =>
        match boto3_client w with
        | Some e =>
            (Raise (RuntimeError (Text (client_failure_text e))),
             staged work_dir fs1 st)
        | None =>
            match download_all w (DownloadS3Args.files_names_list args)
                    (staged work_dir fs1 st) with
            | (Raise e, st2) => (Raise e, st2)
            | (Return _, st2) =>
                if Fs.is_file (fs st2)
                     (PathLib.joinpath work_dir (DownloadS3Args.experiment_file args))
                then (Return {| DownloadS3ArgsResult.exit_code := 200;
                                DownloadS3ArgsResult.folder_name :=
                                  DownloadS3Args.folder args |}, st2)
                else (Raise (HTTPException 400 "Experiment file not found"), st2)
            end
        end
    end
  else (Raise (HTTPException 400 "Invalid folder (outside DATA_ROOT)"), st).
Proof.
  intros work_dir. unfold download_steps. fold work_dir. run_m.
  destruct (in_parents DATA_ROOT work_dir); simpl; [|done].
  unfold mkdir.
  destruct (Fs.mkdir_parents (fs st) work_dir) as [oe|fs1] eqn:Hmk; [done|].
  destruct (mkdir_parents_spec _ _ _ (resolve_plain _) Hmk) as (_ & _ & Hd).
  rewrite (chdir_to_directory work_dir (record (EvMkdir work_dir) (set_fs fs1 st)) Hd).
  fold (entered work_dir (record (EvMkdir work_dir) (set_fs fs1 st))).
  fold (staged work_dir fs1 st).
  unfold make_client. destruct (boto3_client w) as [e|]; simpl.
  - run_m. by rewrite client_handler_raises.
  - run_m. simpl.
    destruct (download_all w _ (staged work_dir fs1 st)) as [[[]|e] st2]; [|done].
    by destruct (Fs.is_file (fs st2) _).
Qed.

End fetch_lemmas.

Lemma download_after_request {F} (w : World F) payload args st :
  download_request w payload = Return args →
  download_files_from_s3 w payload st = download_steps w args st.
Proof. intros H. unfold download_files_from_s3. run_m. by rewrite H. Qed.

(** What [download_all] leaves behind, whether it returns or raises. *)
Lemma download_all_keeps {F} (w : World F) files st :
  FsRel.named (fs st) (cwd st) →
  ∃ evs, log (download_all w files st).2 = log st ++ evs
       ∧ omap download_key evs = files
       ∧ length evs = length files
       ∧ FsRel.grows (fs st) (fs (download_all w files st).2)
       ∧ Forall (λ p, Fs.is_file (fs (download_all w files st).2) p = true)
           (downloaded evs)
       ∧ ∀ e, (download_all w files st).1 = Raise e →
              ∃ errors, e = RuntimeError (DownloadsFailed errors).
Proof.
  intros Hn.
  destruct (download_loop_spec w files ∅ st)
    as (errors & fs' & evs & Hrun & Hkeys & Hlen & Hdom & Hfs).
  destruct (Hfs Hn) as [Hg Hall].
  exists evs. unfold download_all. run_m. rewrite Hrun.
  destruct (bool_decide (errors ≠ ∅)); simpl; split_and!; try done.
  intros e [= <-]. eauto.
Qed.

(** C10. [download_files_from_s3] makes the directory before any
    download. When it then fails because downloads failed or because the
    experiment file is missing, nothing is undone: the directory is there,
    every file written by a download is there, and whatever was on disk
    before is still there. *)
Theorem failed_fetch_leaves_files {F} (w : World F) payload args st e :
  download_request w payload = Return args →
  (download_files_from_s3 w payload st).1 = Raise e →
  (∃ errors, e = RuntimeError (DownloadsFailed errors))
  ∨ e = HTTPException 400 "Experiment file not found" →
  ∃ evs,
    log (download_files_from_s3 w payload st).2
    = log st ++ EvMkdir (work_dir_of (DownloadS3Args.folder args))
             :: EvChdir (work_dir_of (DownloadS3Args.folder args)) :: evs
    ∧ omap download_key evs = DownloadS3Args.files_names_list args
    ∧ length evs = length (DownloadS3Args.files_names_list args)
    ∧ Fs.is_dir (fs (download_files_from_s3 w payload st).2)
        (work_dir_of (DownloadS3Args.folder args)) = true
    ∧ Forall (λ p, Fs.is_file (fs (download_files_from_s3 w payload st).2) p = true)
        (downloaded evs)
    ∧ FsRel.grows (fs st) (fs (download_files_from_s3 w payload st).2).
Proof.
  intros Hreq. rewrite (download_after_request _ _ _ _ Hreq).
  rewrite download_steps_cases. set (work_dir := work_dir_of _).
  destruct (in_parents DATA_ROOT work_dir); simpl;
    [|intros [= <-] [[? ?]|?]; done].
  destruct (Fs.mkdir_parents (fs st) work_dir) as [oe|fs1] eqn:Hmk; simpl;
    [intros [= <-] [[? ?]|?]; done|].
  destruct (mkdir_parents_spec _ _ _ (resolve_plain _) Hmk) as (Hg1 & Hn1 & Hd1).
  destruct (boto3_client w) as [ce|]; simpl;
    [intros [= <-] [[? ?]|?]; done|].
  destruct (download_all_keeps w (DownloadS3Args.files_names_list args)
              (staged work_dir fs1 st) Hn1)
    as (evs & Hlog & Hkeys & Hlen & Hg2 & Hall & _).
  assert (∀ st2, st2 = (download_all w (DownloadS3Args.files_names_list args)
                          (staged work_dir fs1 st)).2 →
            ∃ evs0,
              log st2 = log st ++ EvMkdir work_dir :: EvChdir work_dir :: evs0
              ∧ omap download_key evs0 = DownloadS3Args.files_names_list args
              ∧ length evs0 = length (DownloadS3Args.files_names_list args)
              ∧ Fs.is_dir (fs st2) work_dir = true
              ∧ Forall (λ p, Fs.is_file (fs st2) p = true) (downloaded evs0)
              ∧ FsRel.grows (fs st) (fs st2)) as Hend.
  { intros st2 ->. exists evs. split_and!; try done.
    - rewrite Hlog. simpl. by rewrite <- !app_assoc.
    - by eapply is_dir_grows.
    - by eapply grows_trans. }
  destruct (download_all w _ (staged work_dir fs1 st)) as [[[]|e'] st2]; simpl in *.
  - destruct (Fs.is_file (fs st2) _); simpl; [done|]. intros _ _. by apply Hend.
  - intros _ _. by apply Hend.
Qed.

Lemma failed_fetch_witness :
  ∃ evs,
    log (download_files_from_s3 Demo.quiet
           (Demo.download_payload "Maize" "UFGA8201.MZX"
              ["UFGA8201.MZX"; "missing.WTH"; "SOIL.SOL"]) Demo.start).2
    = log Demo.start ++ EvMkdir (work_dir_of "Maize")
                     :: EvChdir (work_dir_of "Maize") :: evs
    ∧ omap download_key evs = ["UFGA8201.MZX"; "missing.WTH"; "SOIL.SOL"]
    ∧ length evs = 3%nat
    ∧ Fs.is_dir (fs (download_files_from_s3 Demo.quiet
                       (Demo.download_payload "Maize" "UFGA8201.MZX"
                          ["UFGA8201.MZX"; "missing.WTH"; "SOIL.SOL"]) Demo.start).2)
        (work_dir_of "Maize") = true
    ∧ Forall (λ p, Fs.is_file (fs (download_files_from_s3 Demo.quiet
                       (Demo.download_payload "Maize" "UFGA8201.MZX"
                          ["UFGA8201.MZX"; "missing.WTH"; "SOIL.SOL"]) Demo.start).2) p
                   = true)
        (downloaded evs)
    ∧ FsRel.grows (fs Demo.start)
        (fs (download_files_from_s3 Demo.quiet
               (Demo.download_payload "Maize" "UFGA8201.MZX"
                  ["UFGA8201.MZX"; "missing.WTH"; "SOIL.SOL"]) Demo.start).2).
Proof.
  apply (failed_fetch_leaves_files Demo.quiet _
           {| DownloadS3Args.folder := "Maize";
              DownloadS3Args.experiment_file := "UFGA8201.MZX";
              DownloadS3Args.files_names_list :=
                ["UFGA8201.MZX"; "missing.WTH"; "SOIL.SOL"] |}
           Demo.start
           (RuntimeError (DownloadsFailed
              {[ "missing.WTH" := "S3 ClientError [404]: Not Found" ]}))).
  - vm_compute. reflexivity.
  - vm_compute. reflexivity.
  - left. eexists. reflexivity.
Defined.

(** ** Collecting outputs *)

Lemma upload_after_request {F} (w : World F) payload args st :
  upload_request payload = Return args →
  upload_and_collect_output_files w payload st = upload_steps w args st.
Proof. intros H. unfold upload_and_collect_output_files. run_m. by rewrite H. Qed.

(** [ignore_errors=True]: the removal never raises. *)
Lemma rmtree_ignoring_errors_returns {F} (w : World F) p st :
  (shutil_rmtree w p true st).1 = Return ().
Proof. done. Qed.

(** The course of [upload_and_collect_output_files] once the payload is
    valid. *)
Lemma upload_steps_cases {F} (w : World F) (args : UploadCollectOutputArgs.t) st :
  let work_dir := work_dir_of (UploadCollectOutputArgs.folder args) in
  let key := UploadCollectOutputArgs.folder args +:+ ".zip" in
  upload_steps w args st =
  match Fs.stat (fs st) work_dir with
  | inr Fs.Dir =>
      match boto3_client w with
      | Some e =>
          (Raise (RuntimeError (Text (client_failure_text e))), entered work_dir st)
      | None =>
          match (build_zip w work_dir (entered work_dir st)).1 with
          | Raise e =>
              (Raise (HTTPException 500 ("Failed to create ZIP file: " +:+ Exn_str e)),
               entered work_dir st)
          | Return buf =>
              match s3_upload w key buf with
              | Some e =>
                  (Raise (HTTPException 500 (upload_failure_text e)),
                   entered work_dir st)
              | None =>
                  match s3_presign w key with
                  | inr url =>
                      (Return {| UploadCollectOutputArgsResult.exit_code := 200;
                                 UploadCollectOutputArgsResult.s3_presigned_url := url |},
                       collected w work_dir key buf st)
                  | inl e =>
                      (Raise (HTTPException 500 (presign_failure_text e)),
                       collected w work_dir key buf st)
                  end
              end
          end
      end
  | inr (Fs.File _) =>
      (Raise (HTTPException 500
                (OSError_str {| errno := ENOTDIR; filename := work_dir |})), st)
  | inl ENOENT =>
      (Raise (HTTPException 404 (PathLib.str work_dir +:+ " not found")), st)
  | inl e =>
      (Raise (HTTPException 500 (OSError_str {| errno := e; filename := work_dir |})), st)
  end.
Proof.
  intros work_dir key. unfold upload_steps. fold work_dir key. run_m.
  unfold os_chdir.
  destruct (Fs.stat (fs st) work_dir) as [e|[c|]] eqn:Hstat; simpl.
  - by destruct e.
  - done.
  - fold (entered work_dir st). unfold make_client.
    destruct (boto3_client w) as [e|]; simpl.
    { run_m. by destruct e. }
    run_m. unfold build_zip. simpl.
    destruct (find _ _) as [f|]; simpl; [done|].
    unfold upload_fileobj. simpl.
    destruct (s3_upload w key _) as [e|]; simpl; [by destruct e|].
    unfold generate_presigned_url, collected. simpl.
    destruct (s3_presign w key) as [e|url]; simpl; [by destruct e|done].
Qed.

(** The directory is removed only once the archive is stored: the
    effects of the handler are none, or the change of directory alone,
    or the change of directory, the upload, and then the removal. *)
Lemma removal_follows_upload {F} (w : World F) payload st :
  let st' := (upload_and_collect_output_files w payload st).2 in
  log st' = log st
  ∨ (∃ p, log st' = log st ++ [EvChdir p])
  ∨ (∃ p key buf, log st' = log st ++ [EvChdir p; EvUpload key buf; EvRmtree p]).
Proof.
  unfold upload_and_collect_output_files. run_m.
  destruct (upload_request payload) as [args|e]; simpl; [|by left].
  rewrite upload_steps_cases.
  destruct (Fs.stat (fs st) _) as [[]|[c|]]; simpl; try by left.
  destruct (boto3_client w); simpl; [right; left; eauto|].
  destruct (build_zip w _ _).1 as [buf|e] eqn:Hz; simpl; [|right; left; eauto].
  destruct (s3_upload w _ buf); simpl; [right; left; eauto|].
  right; right. eexists _, _, buf.
  destruct (s3_presign w _); unfold collected; simpl; by rewrite <- !app_assoc.
Qed.

(** C7, at the failing input. The system refuses to remove
    [SUMMARY.OUT] of [Wheat] (a removal that does not ignore errors would
    raise [EACCES]); the handler answers 200 with the link all the same,
    and the folder and the file are still on disk: the failed removal is
    not reported, and the folder still exists after a successful call. *)
Lemma refused_removal_is_not_reported :
  let w := Demo.stubborn in
  let r := upload_and_collect_output_files w (Demo.upload_payload "Wheat") Demo.start in
  r.1 = Return {| UploadCollectOutputArgsResult.exit_code := 200;
                  UploadCollectOutputArgsResult.s3_presigned_url :=
                    "https://bucket.s3.amazonaws.com/Wheat.zip" |}
  ∧ Fs.rmtree_error (rm_refused w) Demo.site (work_dir_of "Wheat")
    = Some {| errno := EACCES;
              filename := work_dir_of "Wheat" ++ ["SUMMARY.OUT"] |}
  ∧ Fs.is_dir (fs r.2) (work_dir_of "Wheat") = true
  ∧ Fs.is_file (fs r.2) (work_dir_of "Wheat" ++ ["SUMMARY.OUT"]) = true.
Proof. vm_compute. repeat split. Qed.

(** When nothing is refused, the folder is gone after a successful call. *)
Example collected_folder_is_gone :
  let r := upload_and_collect_output_files Demo.quiet (Demo.upload_payload "Wheat")
             Demo.start in
  is_return r.1 = true ∧ Fs.stat (fs r.2) (work_dir_of "Wheat") = inl ENOENT.
Proof. vm_compute. repeat split. Qed.

(** ** What the caller is told *)




(** ** The folder guard *)

(** C1, counterexample. The name [../bin/Wheat] has a separator and a
    [..] segment; it resolves to the folder [Wheat] under the data root,
    so [run_dssat_experiment] accepts it and starts the process. And
    [upload_and_collect_output_files] has no guard: for the name [..] it
    enters the parent of the data root, stores it and removes it, data
    root included. *)
Lemma traversal_names_are_served :
  has_separator "../bin/Wheat" = true
  ∧ has_parent_segment "../bin/Wheat" = true
  ∧ is_return (run_dssat_experiment Demo.quiet
                 (Demo.run_payload "../bin/Wheat" "SWSW7501.WHX") Demo.start).1 = true
  ∧ no_spawn (log (run_dssat_experiment Demo.quiet
                     (Demo.run_payload "../bin/Wheat" "SWSW7501.WHX") Demo.start).2)
    = false
  ∧ has_parent_segment ".." = true
  ∧ is_return (upload_and_collect_output_files Demo.quiet
                 (Demo.upload_payload "..") Demo.start).1 = true
  ∧ Fs.stat (fs (upload_and_collect_output_files Demo.quiet
                   (Demo.upload_payload "..") Demo.start).2) DATA_ROOT
    = inl ENOENT.
Proof. vm_compute. repeat split. Qed.

(** C1, amended. A folder whose resolved path is not strictly below the
    data root (the empty name, [.] and [..] are such names) makes
    [run_dssat_experiment] and [download_files_from_s3] fail with their
    400 "Invalid folder" error, the state untouched: no change of the file
    system, nothing logged, no process. *)
Theorem escaping_folder_is_rejected {F} (w : World F) (st : State) :
  Forall (λ folder, in_parents DATA_ROOT (work_dir_of folder) = false)
    [""; "."; ".."; "../.."; "Wheat/../.."; "/etc"; "/"]
  ∧ (∀ payload args,
       run_request payload = Return args →
       in_parents DATA_ROOT (work_dir_of (RunArgs.folder args)) = false →
       run_dssat_experiment w payload st
       = (Raise (HTTPException 400 "Invalid folder"), st))
  ∧ (∀ payload args,
       download_request w payload = Return args →
       in_parents DATA_ROOT (work_dir_of (DownloadS3Args.folder args)) = false →
       download_files_from_s3 w payload st
       = (Raise (HTTPException 400 "Invalid folder (outside DATA_ROOT)"), st)).
Proof.
  split_and!.
  - repeat constructor.
  - intros payload args Hreq Hp.
    rewrite (run_after_request _ _ _ _ Hreq). apply run_steps_invalid. by right.
  - intros payload args Hreq Hp.
    rewrite (download_after_request _ _ _ _ Hreq), download_steps_cases.
    by rewrite Hp.
Qed.

Lemma escaping_folder_witness :
  run_dssat_experiment Demo.quiet (Demo.run_payload ".." "SWSW7501.WHX") Demo.start
  = (Raise (HTTPException 400 "Invalid folder"), Demo.start)
  ∧ download_files_from_s3 Demo.quiet
      (Demo.download_payload "/etc" "SWSW7501.WHX" ["SOIL.SOL"]) Demo.start
    = (Raise (HTTPException 400 "Invalid folder (outside DATA_ROOT)"), Demo.start).
Proof.
  destruct (escaping_folder_is_rejected Demo.quiet Demo.start) as (_ & Hrun & Hget).
  split.
  - apply (Hrun _ {| RunArgs.folder := ".."; RunArgs.experiment_file := "SWSW7501.WHX" |});
      vm_compute; reflexivity.
  - apply (Hget _ {| DownloadS3Args.folder := "/etc";
                     DownloadS3Args.experiment_file := "SWSW7501.WHX";
                     DownloadS3Args.files_names_list := ["SOIL.SOL"] |});
      vm_compute; reflexivity.
Defined.

(** ** The two request envelopes *)

Lemma has_key_as_str k d s : as_str (dict_get k d) = Some s → has_key k d = true.
Proof. unfold has_key. by destruct (dict_get k d). Qed.

Lemma run_request_flat a :
  is_return (RunArgs_new (JObj a)) = true →
  run_request a = RunArgs_new (JObj a).
Proof.
  unfold run_request. simpl.
  destruct (as_str (dict_get "folder" a)) eqn:Hf; [|done].
  destruct (as_str (dict_get "experiment_file" a)) eqn:He; [|done].
  by rewrite (has_key_as_str _ _ _ Hf), (has_key_as_str _ _ _ He).
Qed.

Lemma download_request_flat {F} (w : World F) a :
  is_return (DownloadS3Args_new w (JObj a)) = true →
  download_request w a = DownloadS3Args_new w (JObj a).
Proof.
  unfold download_request. simpl.
  destruct (as_str (dict_get "folder" a)) eqn:Hf; [|done].
  destruct (as_str (dict_get "experiment_file" a)) eqn:He; [|done].
  rewrite (has_key_as_str _ _ _ Hf), (has_key_as_str _ _ _ He).
  unfold has_key. by destruct (dict_get "files_names_list" a).
Qed.

Lemma upload_request_flat a :
  is_return (UploadCollectOutputArgs_new (JObj a)) = true →
  upload_request a = UploadCollectOutputArgs_new (JObj a).
Proof.
  unfold upload_request. simpl.
  destruct (as_str (dict_get "folder" a)) eqn:Hf; [|done].
  by rewrite (has_key_as_str _ _ _ Hf).
Qed.

Lemma requests_nested {F} (w : World F) a :
  run_request (wrap_args a) = RunArgs_new (JObj a)
  ∧ download_request w (wrap_args a) = DownloadS3Args_new w (JObj a)
  ∧ upload_request (wrap_args a) = UploadCollectOutputArgs_new (JObj a).
Proof. done. Qed.

Lemma normalize_agrees {F} (w : World F) tool a :
  well_formed w tool a = true →
  normalize w tool a = normalize w tool (wrap_args a).
Proof.
  destruct (requests_nested w a) as (Hr & Hd & Hu).
  destruct tool; cbn [well_formed normalize]; intros Hwf.
  - by rewrite Hr, run_request_flat.
  - by rewrite Hd, download_request_flat.
  - by rewrite Hu, upload_request_flat.
Qed.

(** The handler of a tool is its steps applied to the normalised request. *)
Lemma call_tool_normalized {F} (w : World F) tool payload st :
  call_tool w tool payload st =
  match normalize w tool payload with
  | Raise e => (Raise e, st)
  | Return (RunRequest args) =>
      (r ← run_steps w args; mret (RunEnvelope r)) st
  | Return (FetchInputsRequest args) =>
      (r ← download_steps w args; mret (DownloadEnvelope r)) st
  | Return (CollectOutputsRequest args) =>
      (r ← upload_steps w args; mret (UploadEnvelope r)) st
  end.
Proof.
  destruct tool; simpl;
    unfold run_dssat_experiment, download_files_from_s3,
      upload_and_collect_output_files; run_m.
  - by destruct (run_request payload).
  - by destruct (download_request w payload).
  - by destruct (upload_request payload).
Qed.

(** C9. For each of the three tools, an argument object that passes the
    schema is normalised to the same typed request, and answered with the
    same result and the same final state, whether it is sent flat or under
    ["args"]. A payload with neither the flat fields nor ["args"] is
    answered 400, the state untouched. *)
Theorem request_envelopes_agree {F} (w : World F) (tool : Tool) (st : State) :
  (∀ a, well_formed w tool a = true →
        normalize w tool a = normalize w tool (wrap_args a)
        ∧ is_return (normalize w tool a) = true
        ∧ call_tool w tool a st = call_tool w tool (wrap_args a) st)
  ∧ (∀ payload, flat_shape tool payload = false → nested_shape payload = false →
        call_tool w tool payload st
        = (Raise (HTTPException 400 (expected_keys tool)), st)).
Proof.
  split.
  - intros a Hwf. split_and!.
    + by apply normalize_agrees.
    + destruct tool; cbn [well_formed normalize] in *.
      * rewrite run_request_flat by done. by destruct (RunArgs_new _).
      * rewrite download_request_flat by done. by destruct (DownloadS3Args_new _ _).
      * rewrite upload_request_flat by done. by destruct (UploadCollectOutputArgs_new _).
    + by rewrite !call_tool_normalized, (normalize_agrees w tool a Hwf).
  - intros payload Hflat Hnested. rewrite call_tool_normalized.
    unfold nested_shape in Hnested.
    destruct tool; cbn [flat_shape normalize expected_keys] in *;
      unfold run_request, download_request, upload_request;
      by rewrite Hflat, Hnested.
Qed.

Lemma request_envelopes_witness :
  (normalize Demo.quiet RunTool (Demo.run_payload "Wheat" "SWSW7501.WHX")
   = normalize Demo.quiet RunTool (wrap_args (Demo.run_payload "Wheat" "SWSW7501.WHX"))
   ∧ is_return (normalize Demo.quiet RunTool (Demo.run_payload "Wheat" "SWSW7501.WHX"))
     = true
   ∧ call_tool Demo.quiet RunTool (Demo.run_payload "Wheat" "SWSW7501.WHX") Demo.start
     = call_tool Demo.quiet RunTool
         (wrap_args (Demo.run_payload "Wheat" "SWSW7501.WHX")) Demo.start)
  ∧ call_tool Demo.quiet DownloadTool [("folder", JStr "Wheat")] Demo.start
    = (Raise (HTTPException 400 (expected_keys DownloadTool)), Demo.start).
Proof.
  split.
  - apply (request_envelopes_agree Demo.quiet RunTool Demo.start).
    vm_compute. reflexivity.
  - apply (request_envelopes_agree Demo.quiet DownloadTool Demo.start);
      vm_compute; reflexivity.
Defined.

(** * Further properties of the code *)

(** ** Names of one segment *)

Lemma append_empty_r (s : string) : s +:+ "" = s.
Proof.
  induction s as [|c s IH]; [done|].
  change (String c (s +:+ "") = String c s). by rewrite IH.
Qed.

Lemma rev_app_twice (s t u : string) :
  String.rev_app (String.rev_app s t) u = String.rev_app t (s +:+ u).
Proof.
  revert t u. induction s as [|c s IH]; intros t u; [done|].
  change (String.rev_app (String.rev_app s (String c t)) u
          = String.rev_app t (String c (s +:+ u))).
  exact (IH (String c t) u).
Qed.

Lemma rev_rev (s : string) : String.rev (String.rev s) = s.
Proof.
  unfold String.rev. rewrite rev_app_twice.
  change (s +:+ "" = s). apply append_empty_r.
Qed.

Lemma split_go_without_sep sep cur s :
  str_contains sep s = false →
  Py.split_go sep cur s = [String.rev (String.rev_app s cur)].
Proof.
  revert cur. induction s as [|c s IH]; intros cur; cbn; [done|].
  intros [Hc Hs]%orb_false_iff. rewrite Hc. by apply IH.
Qed.

Lemma split_without_sep sep s : str_contains sep s = false → Py.split sep s = [s].
Proof.
  intros H. unfold Py.split. rewrite split_go_without_sep by done.
  fold (String.rev s). by rewrite rev_rev.
Qed.

Lemma plain_name_parts s : plain_name s = true → PathLib.parts s = [s].
Proof.
  unfold plain_name. intros [Hs Hn]%andb_true_iff.
  apply negb_true_iff in Hs. apply bool_decide_eq_true in Hn as (? & ? & ?).
  unfold PathLib.parts. rewrite split_without_sep by done.
  rewrite filter_cons, decide_True by done. done.
Qed.

Lemma plain_name_relative s : plain_name s = true → PathLib.is_absolute s = false.
Proof.
  unfold plain_name. intros [Hs _]%andb_true_iff. apply negb_true_iff in Hs.
  destruct s as [|c s]; [done|]. cbn in Hs. apply orb_false_iff in Hs as [Hc _].
  unfold PathLib.is_absolute, Py.startswith.
  change (String.prefix "/" (String c s))
    with (if ascii_dec "/" c then String.prefix "" s else false).
  destruct (ascii_dec "/" c) as [<-|]; [|done].
  by rewrite Ascii.eqb_refl in Hc.
Qed.

(** X1. A folder name of one segment (no separator; not empty, [.] or
    [..]) resolves to the directory of that name directly under the data
    root, and passes the test [DATA_ROOT in work_dir.parents]. *)
Theorem plain_folder_is_inside (folder : string) :
  plain_name folder = true →
  work_dir_of folder = DATA_ROOT ++ [folder]
  ∧ in_parents DATA_ROOT (work_dir_of folder) = true.
Proof.
  intros Hplain.
  assert (work_dir_of folder = DATA_ROOT ++ [folder]) as ->.
  { unfold work_dir_of, PathLib.joinpath.
    rewrite (plain_name_relative _ Hplain), (plain_name_parts _ Hplain).
    unfold PathLib.resolve. rewrite foldl_app. cbn.
    rewrite decide_False; [done|].
    unfold plain_name in Hplain. apply andb_true_iff in Hplain as [_ Hn].
    by apply bool_decide_eq_true in Hn as (_ & _ & Hn). }
  split; [done|]. apply in_parents_spec. split.
  - by apply prefix_app_r.
  - intros Heq. apply (f_equal length) in Heq. rewrite length_app in Heq.
    simpl in Heq. lia.
Qed.

Lemma plain_folder_witness :
  work_dir_of "Custom_Folder_Name" = DATA_ROOT ++ ["Custom_Folder_Name"]
  ∧ in_parents DATA_ROOT (work_dir_of "Custom_Folder_Name") = true.
Proof. apply plain_folder_is_inside. vm_compute. reflexivity. Defined.

(** ** The folder test of the handlers *)

Lemma download_all_raises_failures {F} (w : World F) files st e :
  (download_all w files st).1 = Raise e →
  ∃ errors, e = RuntimeError (DownloadsFailed errors).
Proof.
  destruct (download_loop_spec w files ∅ st) as (errors & fs' & evs & Hrun & _).
  unfold download_all. run_m. rewrite Hrun.
  destruct (bool_decide (errors ≠ ∅)); simpl; [|done]. intros [= <-]. eauto.
Qed.

(** X2. [run_dssat_experiment] answers 400 "Invalid folder" exactly when
    the resolved folder is not a directory or is not strictly below the
    data root; [download_files_from_s3] answers 400 "Invalid folder
    (outside DATA_ROOT)" exactly when it is not strictly below the data
    root (a folder that does not exist yet is not rejected there). *)
Theorem invalid_folder_iff {F} (w : World F) (st : State) :
  (∀ payload args,
     run_request payload = Return args →
     (run_dssat_experiment w payload st).1 = Raise (HTTPException 400 "Invalid folder")
     ↔ Fs.is_dir (fs st) (work_dir_of (RunArgs.folder args)) = false
       ∨ in_parents DATA_ROOT (work_dir_of (RunArgs.folder args)) = false)
  ∧ (∀ payload args,
       download_request w payload = Return args →
       (download_files_from_s3 w payload st).1
       = Raise (HTTPException 400 "Invalid folder (outside DATA_ROOT)")
       ↔ in_parents DATA_ROOT (work_dir_of (DownloadS3Args.folder args)) = false).
Proof.
  split.
  - intros payload args Hreq. rewrite (run_after_request _ _ _ _ Hreq). split.
    + destruct (Fs.is_dir (fs st) (work_dir_of (RunArgs.folder args))) eqn:Hd;
        [|by left].
      destruct (in_parents DATA_ROOT (work_dir_of (RunArgs.folder args))) eqn:Hp;
        [|by right].
      destruct (Fs.is_file (fs st)
                  (PathLib.joinpath (work_dir_of (RunArgs.folder args))
                     (RunArgs.experiment_file args))) eqn:Hf.
      * rewrite (run_steps_spawn w args st Hd Hp Hf). simpl.
        by destruct (subprocess_run w _ _ 600 (fs st)).
      * by rewrite (run_steps_no_file w args st Hd Hp Hf).
    + intros H. by rewrite run_steps_invalid.
  - intros payload args Hreq.
    rewrite (download_after_request _ _ _ _ Hreq), download_steps_cases.
    destruct (in_parents _ _); simpl; [|done]. split; [|done].
    destruct (Fs.mkdir_parents _ _); simpl; [done|].
    destruct (boto3_client w); simpl; [done|].
    destruct (download_all w _ _) as [[[]|e] st2] eqn:Hall; simpl.
    + by destruct (Fs.is_file _ _).
    + intros [= ->].
      pose proof (download_all_raises_failures w
                    (DownloadS3Args.files_names_list args) _
                    (HTTPException 400 "Invalid folder (outside DATA_ROOT)")
                    (f_equal fst Hall)) as [errors Herr].
      done.
Qed.

Lemma invalid_folder_witness :
  ((run_dssat_experiment Demo.quiet (Demo.run_payload "Maize" "UFGA8201.MZX")
      Demo.start).1 = Raise (HTTPException 400 "Invalid folder")
   ↔ Fs.is_dir (fs Demo.start) (work_dir_of "Maize") = false
     ∨ in_parents DATA_ROOT (work_dir_of "Maize") = false)
  ∧ ((download_files_from_s3 Demo.quiet
        (Demo.download_payload "Maize" "UFGA8201.MZX" ["UFGA8201.MZX"]) Demo.start).1
     = Raise (HTTPException 400 "Invalid folder (outside DATA_ROOT)")
     ↔ in_parents DATA_ROOT (work_dir_of "Maize") = false).
Proof.
  destruct (invalid_folder_iff Demo.quiet Demo.start) as [Hrun Hget]. split.
  - apply (Hrun _ {| RunArgs.folder := "Maize";
                     RunArgs.experiment_file := "UFGA8201.MZX" |}).
    vm_compute. reflexivity.
  - apply (Hget _ {| DownloadS3Args.folder := "Maize";
                     DownloadS3Args.experiment_file := "UFGA8201.MZX";
                     DownloadS3Args.files_names_list := ["UFGA8201.MZX"] |}).
    vm_compute. reflexivity.
Defined.

(** ** What [run_dssat_experiment] starts *)

(** X3. Whatever the payload, a process that [run_dssat_experiment]
    starts is the configured executable with the arguments ["A"] and the
    experiment file, with the 600-second timeout, in the resolved folder;
    that folder is an existing directory strictly below the data root and
    the experiment-file test has passed. *)
Theorem run_spawns_only_inside {F} (w : World F) payload st cmd dir timeout :
  EvSpawn cmd dir timeout ∈ log (run_dssat_experiment w payload st).2 →
  EvSpawn cmd dir timeout ∈ log st
  ∨ ∃ args,
      run_request payload = Return args
      ∧ cmd = [PathLib.str DSSAT_EXE; "A"; RunArgs.experiment_file args]
      ∧ dir = work_dir_of (RunArgs.folder args)
      ∧ timeout = 600%N
      ∧ DATA_ROOT `prefix_of` dir ∧ DATA_ROOT ≠ dir
      ∧ Fs.is_dir (fs st) dir = true
      ∧ Fs.is_file (fs st) (PathLib.joinpath dir (RunArgs.experiment_file args)) = true.
Proof.
  destruct (run_request payload) as [args|e] eqn:Hreq.
  2:{ unfold run_dssat_experiment. run_m. rewrite Hreq. by left. }
  rewrite (run_after_request _ _ _ _ Hreq).
  destruct (Fs.is_dir (fs st) (work_dir_of (RunArgs.folder args))) eqn:Hd;
    [|rewrite run_steps_invalid by auto; by left].
  destruct (in_parents DATA_ROOT (work_dir_of (RunArgs.folder args))) eqn:Hp;
    [|rewrite run_steps_invalid by auto; by left].
  destruct (Fs.is_file (fs st)
              (PathLib.joinpath (work_dir_of (RunArgs.folder args))
                 (RunArgs.experiment_file args))) eqn:Hf.
  - rewrite (run_steps_spawn w args st Hd Hp Hf). simpl.
    intros Hin.
    assert (EvSpawn cmd dir timeout
            ∈ (log st ++ [EvChdir (work_dir_of (RunArgs.folder args))])
              ++ [EvSpawn (run_cmd args) (work_dir_of (RunArgs.folder args)) 600])
      as Hin' by (by destruct (subprocess_run w _ _ 600 (fs st))).
    apply elem_of_app in Hin' as [[?|Hc%list_elem_of_singleton]%elem_of_app
                                  |Hs%list_elem_of_singleton]; [by left|done|].
    injection Hs as -> -> ->. right. exists args.
    apply in_parents_spec in Hp as [? ?]. by split_and!.
  - rewrite (run_steps_no_file w args st Hd Hp Hf). simpl.
    intros [?|Hc%list_elem_of_singleton]%elem_of_app; [by left|done].
Qed.

Lemma run_spawns_witness :
  EvSpawn ["/home/christos/dssat-csm-os/build/bin/dscsm048"; "A"; "SWSW7501.WHX"]
    (DATA_ROOT ++ ["Wheat"]) 600 ∈ log Demo.start
  ∨ ∃ args,
      run_request (Demo.run_payload "Wheat" "SWSW7501.WHX") = Return args
      ∧ ["/home/christos/dssat-csm-os/build/bin/dscsm048"; "A"; "SWSW7501.WHX"]
        = [PathLib.str DSSAT_EXE; "A"; RunArgs.experiment_file args]
      ∧ DATA_ROOT ++ ["Wheat"] = work_dir_of (RunArgs.folder args)
      ∧ 600%N = 600%N
      ∧ DATA_ROOT `prefix_of` DATA_ROOT ++ ["Wheat"]
      ∧ DATA_ROOT ≠ DATA_ROOT ++ ["Wheat"]
      ∧ Fs.is_dir (fs Demo.start) (DATA_ROOT ++ ["Wheat"]) = true
      ∧ Fs.is_file (fs Demo.start)
          (PathLib.joinpath (DATA_ROOT ++ ["Wheat"]) (RunArgs.experiment_file args))
        = true.
Proof.
  apply (run_spawns_only_inside Demo.quiet (Demo.run_payload "Wheat" "SWSW7501.WHX")).
  vm_compute. apply list_elem_of_In. right. left. reflexivity.
Defined.

(** X4. When the executable cannot be started ([subprocess.run] raises
    an [OSError]), [run_dssat_experiment] does not answer with an
    [HTTPException]: the [OSError] leaves the handler as it is, after the
    change of directory, and the file system is unchanged. *)
Theorem launch_failure_escapes {F} (w : World F) payload args st e :
  run_request payload = Return args →
  Fs.is_dir (fs st) (work_dir_of (RunArgs.folder args)) = true →
  in_parents DATA_ROOT (work_dir_of (RunArgs.folder args)) = true →
  Fs.is_file (fs st)
    (PathLib.joinpath (work_dir_of (RunArgs.folder args))
       (RunArgs.experiment_file args)) = true →
  subprocess_run w (run_cmd args) (work_dir_of (RunArgs.folder args)) 600 (fs st)
    = LaunchFailed e →
  (run_dssat_experiment w payload st).1 = Raise (PyOSError e)
  ∧ fs (run_dssat_experiment w payload st).2 = fs st
  ∧ cwd (run_dssat_experiment w payload st).2 = work_dir_of (RunArgs.folder args).
Proof.
  intros Hreq Hd Hp Hf Hrun.
  rewrite (run_after_request _ _ _ _ Hreq), (run_steps_spawn w args st Hd Hp Hf).
  simpl. by rewrite Hrun.
Qed.

Lemma launch_failure_witness :
  let w := Demo.world (λ _, LaunchFailed {| errno := ENOENT; filename := DSSAT_EXE |})
             (λ _, false) in
  (run_dssat_experiment w (Demo.run_payload "Wheat" "SWSW7501.WHX") Demo.start).1
  = Raise (PyOSError {| errno := ENOENT; filename := DSSAT_EXE |})
  ∧ fs (run_dssat_experiment w (Demo.run_payload "Wheat" "SWSW7501.WHX") Demo.start).2
    = fs Demo.start
  ∧ cwd (run_dssat_experiment w (Demo.run_payload "Wheat" "SWSW7501.WHX") Demo.start).2
    = work_dir_of "Wheat".
Proof.
  apply (launch_failure_escapes
           (Demo.world (λ _, LaunchFailed {| errno := ENOENT; filename := DSSAT_EXE |})
              (λ _, false))
           (Demo.run_payload "Wheat" "SWSW7501.WHX")
           {| RunArgs.folder := "Wheat"; RunArgs.experiment_file := "SWSW7501.WHX" |}
           Demo.start {| errno := ENOENT; filename := DSSAT_EXE |});
    vm_compute; reflexivity.
Defined.

(** X5. The experiment-file test is made on [work_dir / experiment_file]:
    when the experiment file is given as an absolute path, it is looked up
    at that path and not in the folder, and the process is started in the
    folder with that absolute path as its argument. *)
Theorem absolute_experiment_file_is_run {F} (w : World F) payload args st :
  run_request payload = Return args →
  Fs.is_dir (fs st) (work_dir_of (RunArgs.folder args)) = true →
  in_parents DATA_ROOT (work_dir_of (RunArgs.folder args)) = true →
  PathLib.is_absolute (RunArgs.experiment_file args) = true →
  Fs.is_file (fs st) (PathLib.parts (RunArgs.experiment_file args)) = true →
  log (run_dssat_experiment w payload st).2
  = log st ++ [EvChdir (work_dir_of (RunArgs.folder args));
               EvSpawn [PathLib.str DSSAT_EXE; "A"; RunArgs.experiment_file args]
                 (work_dir_of (RunArgs.folder args)) 600].
Proof.
  intros Hreq Hd Hp Habs Hf.
  assert (Fs.is_file (fs st)
            (PathLib.joinpath (work_dir_of (RunArgs.folder args))
               (RunArgs.experiment_file args)) = true) as Hf'.
  { unfold PathLib.joinpath. by rewrite Habs. }
  rewrite (run_after_request _ _ _ _ Hreq), (run_steps_spawn w args st Hd Hp Hf').
  simpl. destruct (subprocess_run w _ _ 600 (fs st)); simpl;
    by rewrite <- app_assoc.
Qed.

Lemma absolute_experiment_file_witness :
  log (run_dssat_experiment Demo.quiet
         (Demo.run_payload "Apple"
            "/home/christos/dssat-csm-os/build/bin/Wheat/SWSW7501.WHX") Demo.start).2
  = log Demo.start
      ++ [EvChdir (work_dir_of "Apple");
          EvSpawn [PathLib.str DSSAT_EXE; "A";
                   "/home/christos/dssat-csm-os/build/bin/Wheat/SWSW7501.WHX"]
            (work_dir_of "Apple") 600].
Proof.
  apply (absolute_experiment_file_is_run Demo.quiet _
           {| RunArgs.folder := "Apple";
              RunArgs.experiment_file :=
                "/home/christos/dssat-csm-os/build/bin/Wheat/SWSW7501.WHX" |});
    vm_compute; reflexivity.
Defined.

(** ** Downloads of single-segment names *)

Section plain_downloads.
Import FsRel.
Context {F : Type} (w : World F).

Lemma split_dot_slash key :
  str_contains "/" key = false → Py.split "/" ("./" +:+ key) = ["."; key].
Proof.
  intros Hk. change (Py.split "/" ("./" +:+ key)) with ("." :: Py.split "/" key).
  by rewrite split_without_sep.
Qed.

(** Where a single-segment name is written: in the current directory. *)
Lemma target_plain (fs : FS) cwd key :
  plain_name key = true → Fs.node_at fs cwd = Some Fs.Dir →
  Fs.target fs cwd ("./" +:+ key) =
  match Fs.node_at fs (cwd ++ [key]) with
  | Some Fs.Dir => inl {| errno := EISDIR; filename := cwd ++ [key] |}
  | _ => inr (cwd ++ [key])
  end.
Proof.
  unfold plain_name. intros [Hs Hn]%andb_true_iff Hd.
  apply negb_true_iff in Hs. apply bool_decide_eq_true in Hn as (? & ? & ?).
  unfold Fs.target. rewrite split_dot_slash by done. cbn [removelast last].
  rewrite filter_cons, decide_False by (intros [_ ?]; done).
  rewrite filter_nil. cbn [Fs.walk]. rewrite Hd.
  change (last ["."; key]) with (Some key).
  rewrite decide_False by (intros [?|[?|?]]; done). done.
Qed.

Lemma download_file_plain key st :
  plain_name key = true → Fs.node_at (fs st) (cwd st) = Some Fs.Dir →
  download_file w key st =
  match s3_object w key with
  | inl e => (Raise e, record (EvDownload key None) st)
  | inr body =>
      match Fs.node_at (fs st) (cwd st ++ [key]) with
      | Some Fs.Dir =>
          (Raise (PyOSError {| errno := EISDIR; filename := cwd st ++ [key] |}),
           record (EvDownload key None) st)
      | _ =>
          (Return (),
           record (EvDownload key (Some (cwd st ++ [key])))
             (set_fs (<[cwd st ++ [key] := Fs.File body]> (fs st)) st))
      end
  end.
Proof.
  intros Hplain Hd. unfold download_file, Fs.create.
  destruct (s3_object w key) as [e|body]; [done|].
  rewrite (target_plain _ _ _ Hplain Hd).
  by destruct (Fs.node_at (fs st) (cwd st ++ [key])) as [[c|]|].
Qed.

(** The loop over single-segment names writes the files of those names in
    the current directory and nothing else; when it ends with an empty
    dictionary, each of them holds the object of its name. *)
Lemma download_loop_plain files : ∀ errors st,
  named (fs st) (cwd st) → Fs.node_at (fs st) (cwd st) = Some Fs.Dir →
  Forall (λ k, plain_name k = true) files →
  (∀ q, (∀ k, k ∈ files → q ≠ cwd st ++ [k]) →
        fs (download_loop w files errors st).2 !! q = fs st !! q)
  ∧ ((download_loop w files errors st).1 = Return ∅ →
     ∀ k, k ∈ files →
          ∃ body, s3_object w k = inr body
                ∧ fs (download_loop w files errors st).2 !! (cwd st ++ [k])
                  = Some (Fs.File body)).
Proof.
  induction files as [|key files IH]; intros errors st Hn Hd Hplain.
  { split; [done|]. intros _ k Hk. by apply elem_of_nil in Hk. }
  apply Forall_cons in Hplain as [Hkey Hplain].
  assert (∀ (reason : string) st1,
            cwd st1 = cwd st → fs st1 = fs st →
            (∀ q, (∀ k, k ∈ key :: files → q ≠ cwd st ++ [k]) →
                  fs (download_loop w files (<[key := reason]> errors) st1).2 !! q
                  = fs st !! q)
            ∧ ((download_loop w files (<[key := reason]> errors) st1).1 = Return ∅ →
               ∀ k, k ∈ key :: files →
                    ∃ body, s3_object w k = inr body
                          ∧ fs (download_loop w files (<[key := reason]> errors) st1).2
                              !! (cwd st ++ [k]) = Some (Fs.File body))) as Hfail.
  { intros reason st1 Hcwd Hfs.
    destruct (IH (<[key := reason]> errors) st1) as [Hframe _];
      [by rewrite Hcwd, Hfs|by rewrite Hcwd, Hfs|done|].
    split.
    - intros q Hq. rewrite Hframe, Hfs; [done|].
      intros k Hk. rewrite Hcwd. apply Hq. by right.
    - intros Hret.
      destruct (download_loop_spec w files (<[key := reason]> errors) st1)
        as (errors' & fs' & evs & Hrun & _ & _ & Hdom & _).
      rewrite Hrun in Hret. injection Hret as ->.
      rewrite dom_empty_L, dom_insert_L in Hdom.
      assert (key ∈ (∅ : gset string)) as Hin
        by (rewrite Hdom; apply elem_of_union_l, elem_of_union_l, elem_of_singleton;
            done).
      by apply not_elem_of_empty in Hin. }
  cbn [download_loop]. run_m. rewrite (download_file_plain _ _ Hkey Hd).
  destruct (s3_object w key) as [e|body] eqn:Hobj.
  { destruct e; apply Hfail; done. }
  destruct (Fs.node_at (fs st) (cwd st ++ [key])) as [[c|]|] eqn:Hnode;
    [|by apply Hfail|].
  all: set (st1 := record (EvDownload key (Some (cwd st ++ [key])))
                     (set_fs (<[cwd st ++ [key] := Fs.File body]> (fs st)) st)).
  all: assert (cwd st ++ [key] ≠ []) as Hne by (by destruct (cwd st)).
  all: assert (grows (fs st) (fs st1)) as Hg
         by (apply grows_insert; [done|]; right; split; [eauto|by rewrite Hnode]).
  all: assert (named (fs st1) (cwd st1)) as Hn1 by (by eapply walk_grows).
  all: assert (Fs.node_at (fs st1) (cwd st1) = Some Fs.Dir) as Hd1
         by (specialize (Hg (cwd st)); by rewrite Hd in Hg).
  all: destruct (IH errors st1 Hn1 Hd1 Hplain) as [Hframe Hcontent].
  all: split.
  all: try (intros q Hq; rewrite Hframe by (intros k Hk; apply Hq; by right);
            cbn; apply lookup_insert_ne; intros Heq; symmetry in Heq; revert Heq;
            apply Hq; by left).
  all: intros Hret k [->|Hk]%elem_of_cons; [|by apply Hcontent].
  all: destruct (decide (key ∈ files)) as [Hk|Hk]; [by apply Hcontent|].
  all: exists body; split; [done|].
  all: rewrite Hframe by (intros k' Hk' [= ->]%(inj (app (cwd st))); done).
  all: cbn; apply lookup_insert_eq.
Qed.

End plain_downloads.

(** ** What a fetch writes *)

Lemma mkdir_from_keeps cs : ∀ (fs fs' : FS) cur,
  Fs.mkdir_from fs cur cs = inr fs' →
  ∀ q n, fs !! q = Some n → fs' !! q = Some n.
Proof.
  induction cs as [|c cs IH]; intros fs fs' cur; simpl.
  - by intros [= <-].
  - destruct (Fs.node_at fs (cur ++ [c])) as [[?|]|] eqn:Hnxt; [done|by apply IH|].
    intros Hmk q n Hq. apply (IH _ _ _ Hmk).
    rewrite lookup_insert_ne; [done|]. intros <-.
    destruct (cur ++ [c]) eqn:Hp; [by destruct cur|]. simpl in Hnxt. congruence.
Qed.

Lemma download_all_loop {F} (w : World F) files st :
  (download_all w files st).2 = (download_loop w files ∅ st).2
  ∧ ((download_all w files st).1 = Return () →
     (download_loop w files ∅ st).1 = Return ∅).
Proof.
  destruct (download_loop_spec w files ∅ st) as (errors & fs' & evs & Hrun & _).
  unfold download_all. run_m. rewrite Hrun.
  destruct (decide (errors = ∅)) as [->|Hne].
  - by rewrite bool_decide_false by (by intros []).
  - by rewrite bool_decide_true.
Qed.

Lemma staged_is_ready (fs1 : FS) work_dir st :
  ".." ∉ work_dir → Fs.mkdir_parents (fs st) work_dir = inr fs1 →
  FsRel.named (fs (staged work_dir fs1 st)) (cwd (staged work_dir fs1 st))
  ∧ Fs.node_at (fs (staged work_dir fs1 st)) (cwd (staged work_dir fs1 st))
    = Some Fs.Dir.
Proof.
  intros Hplain Hmk.
  destruct (mkdir_parents_spec _ _ _ Hplain Hmk) as (_ & Hn & Hd).
  by destruct (is_dir_named _ _ Hplain Hd).
Qed.

(** X6. A fetch whose file names are single segments changes nothing that
    was on disk, except the files of those names in the working directory:
    every other entry is still there, with its content, however the call
    ends. *)
Theorem fetch_keeps_other_entries {F} (w : World F) payload args st q n :
  download_request w payload = Return args →
  Forall (λ k, plain_name k = true) (DownloadS3Args.files_names_list args) →
  fs st !! q = Some n →
  (∀ k, k ∈ DownloadS3Args.files_names_list args →
        q ≠ work_dir_of (DownloadS3Args.folder args) ++ [k]) →
  fs (download_files_from_s3 w payload st).2 !! q = Some n.
Proof.
  intros Hreq Hplain Hq Hother.
  rewrite (download_after_request _ _ _ _ Hreq), download_steps_cases.
  set (work_dir := work_dir_of _) in *.
  destruct (in_parents DATA_ROOT work_dir); simpl; [|done].
  destruct (Fs.mkdir_parents (fs st) work_dir) as [oe|fs1] eqn:Hmk; simpl; [done|].
  pose proof (mkdir_from_keeps _ _ _ _ Hmk q n Hq) as Hq1.
  destruct (boto3_client w); simpl; [done|].
  destruct (staged_is_ready fs1 work_dir st (resolve_plain _) Hmk) as [Hn Hd].
  destruct (download_loop_plain w (DownloadS3Args.files_names_list args) ∅
              (staged work_dir fs1 st) Hn Hd Hplain) as [Hframe _].
  destruct (download_all_loop w (DownloadS3Args.files_names_list args)
              (staged work_dir fs1 st)) as [Hst _].
  specialize (Hframe q Hother). rewrite <- Hst in Hframe.
  destruct (download_all w _ (staged work_dir fs1 st)) as [[[]|e] st2]; simpl in *.
  - destruct (Fs.is_file (fs st2) _); simpl; by rewrite Hframe.
  - by rewrite Hframe.
Qed.

Lemma fetch_keeps_witness :
  fs (download_files_from_s3 Demo.quiet
        (Demo.download_payload "Wheat" "SWSW7501.WHX" ["SOIL.SOL"; "missing.WTH"])
        Demo.start).2 !! (DATA_ROOT ++ ["Wheat"; "SWSW7501.WHX"])
  = Some (Fs.File "*EXP.DETAILS").
Proof.
  apply (fetch_keeps_other_entries Demo.quiet _
           {| DownloadS3Args.folder := "Wheat";
              DownloadS3Args.experiment_file := "SWSW7501.WHX";
              DownloadS3Args.files_names_list := ["SOIL.SOL"; "missing.WTH"] |}).
  - vm_compute. reflexivity.
  - repeat constructor.
  - vm_compute. reflexivity.
  - intros k Hk Heq. apply (inj (app (work_dir_of "Wheat"))) in Heq.
    injection Heq as <-.
    apply list_elem_of_In in Hk. simpl in Hk. by destruct Hk as [?|[?|?]].
Defined.

(** X7. When a fetch of single-segment names succeeds, every name of
    the list is a regular file of the working directory holding the object
    stored under that name, the experiment file is there, and the answer is
    200 with the folder name as sent. *)
Theorem successful_fetch_stores_objects {F} (w : World F) payload args st r :
  download_request w payload = Return args →
  Forall (λ k, plain_name k = true) (DownloadS3Args.files_names_list args) →
  (download_files_from_s3 w payload st).1 = Return r →
  Forall (λ k, ∃ body,
            s3_object w k = inr body
            ∧ Fs.read (fs (download_files_from_s3 w payload st).2)
                (work_dir_of (DownloadS3Args.folder args) ++ [k]) = Some body)
    (DownloadS3Args.files_names_list args)
  ∧ Fs.is_file (fs (download_files_from_s3 w payload st).2)
      (PathLib.joinpath (work_dir_of (DownloadS3Args.folder args))
         (DownloadS3Args.experiment_file args)) = true
  ∧ r = {| DownloadS3ArgsResult.exit_code := 200;
           DownloadS3ArgsResult.folder_name := DownloadS3Args.folder args |}.
Proof.
  intros Hreq Hplain.
  rewrite (download_after_request _ _ _ _ Hreq), download_steps_cases.
  set (work_dir := work_dir_of _) in *.
  destruct (in_parents DATA_ROOT work_dir); simpl; [|done].
  destruct (Fs.mkdir_parents (fs st) work_dir) as [oe|fs1] eqn:Hmk; simpl; [done|].
  destruct (boto3_client w); simpl; [done|].
  destruct (staged_is_ready fs1 work_dir st (resolve_plain _) Hmk) as [Hn Hd].
  destruct (download_loop_plain w (DownloadS3Args.files_names_list args) ∅
              (staged work_dir fs1 st) Hn Hd Hplain) as [_ Hcontent].
  destruct (download_all_loop w (DownloadS3Args.files_names_list args)
              (staged work_dir fs1 st)) as [Hst Hret].
  destruct (download_all_keeps w (DownloadS3Args.files_names_list args)
              (staged work_dir fs1 st) Hn) as (_ & _ & _ & _ & Hg & _).
  rewrite <- Hst in Hcontent.
  destruct (download_all w _ (staged work_dir fs1 st)) as [[[]|e] st2];
    simpl in *; [|done].
  destruct (Fs.is_file (fs st2) _) eqn:Hexp; simpl; [|done].
  intros [= <-]. split_and!; [|done|done].
  apply Forall_forall. intros k Hk.
  destruct (Hcontent (Hret eq_refl) k Hk) as (body & Hobj & Hfile).
  exists body. split; [done|].
  assert (FsRel.named (fs st2) (work_dir ++ [k])) as Hnk.
  { apply named_step.
    - by eapply walk_grows.
    - specialize (Hg work_dir). by rewrite Hd in Hg.
    - rewrite Forall_forall in Hplain. specialize (Hplain k Hk).
      unfold plain_name in Hplain. apply andb_true_iff in Hplain as [_ Hp].
      by apply bool_decide_eq_true in Hp as (_ & _ & Hp). }
  unfold Fs.read. rewrite (stat_named _ _ Hnk).
  destruct (work_dir ++ [k]) eqn:Hp; [by destruct work_dir|].
  simpl. by rewrite Hfile.
Qed.

Lemma successful_fetch_witness :
  Forall (λ k, ∃ body,
            s3_object Demo.quiet k = inr body
            ∧ Fs.read (fs (download_files_from_s3 Demo.quiet
                             (Demo.download_payload "Maize" "UFGA8201.MZX"
                                ["SOIL.SOL"; "UFGA8201.WTH"; "UFGA8201.MZX"])
                             Demo.start).2)
                (work_dir_of "Maize" ++ [k]) = Some body)
    ["SOIL.SOL"; "UFGA8201.WTH"; "UFGA8201.MZX"]
  ∧ Fs.is_file (fs (download_files_from_s3 Demo.quiet
                      (Demo.download_payload "Maize" "UFGA8201.MZX"
                         ["SOIL.SOL"; "UFGA8201.WTH"; "UFGA8201.MZX"]) Demo.start).2)
      (PathLib.joinpath (work_dir_of "Maize") "UFGA8201.MZX") = true
  ∧ {| DownloadS3ArgsResult.exit_code := 200;
       DownloadS3ArgsResult.folder_name := "Maize" |}
    = {| DownloadS3ArgsResult.exit_code := 200;
         DownloadS3ArgsResult.folder_name := "Maize" |}.
Proof.
  apply (successful_fetch_stores_objects Demo.quiet
           (Demo.download_payload "Maize" "UFGA8201.MZX"
              ["SOIL.SOL"; "UFGA8201.WTH"; "UFGA8201.MZX"])
           {| DownloadS3Args.folder := "Maize";
              DownloadS3Args.experiment_file := "UFGA8201.MZX";
              DownloadS3Args.files_names_list :=
                ["SOIL.SOL"; "UFGA8201.WTH"; "UFGA8201.MZX"] |}).
  - vm_compute. reflexivity.
  - repeat constructor.
  - vm_compute. reflexivity.
Defined.

Lemma mkdir_from_errno cs : ∀ (fs : FS) cur e,
  Fs.mkdir_from fs cur cs = inl e → errno e = EEXIST ∨ errno e = ENOTDIR.
Proof.
  induction cs as [|c cs IH]; intros fs cur e; simpl; [done|].
  destruct (Fs.node_at fs (cur ++ [c])) as [[?|]|]; [|by apply IH..].
  intros [= <-]. destruct cs; auto.
Qed.

Lemma mkdir_from_blocked cs : ∀ (fs : FS) cur pre post c,
  cs = pre ++ post → pre ≠ [] → fs !! (cur ++ pre) = Some (Fs.File c) →
  ∃ e, Fs.mkdir_from fs cur cs = inl e.
Proof.
  induction cs as [|c0 cs IH]; intros fs cur pre post c Hcs Hpre Hfile.
  { by destruct pre. }
  destruct pre as [|c1 pre]; [done|]. injection Hcs as -> Hcs. simpl.
  assert (Fs.node_at fs (cur ++ [c1]) = fs !! (cur ++ [c1])) as Hnode
    by (by destruct cur).
  rewrite Hnode.
  replace (cur ++ c1 :: pre) with ((cur ++ [c1]) ++ pre) in Hfile
    by (by rewrite <- app_assoc).
  destruct (fs !! (cur ++ [c1])) as [[?|]|] eqn:Hnxt; [eauto| |].
  - destruct pre as [|c2 pre]; [rewrite app_nil_r in Hfile; congruence|].
    by eapply (IH fs (cur ++ [c1]) (c2 :: pre) post c).
  - destruct pre as [|c2 pre]; [rewrite app_nil_r in Hfile; congruence|].
    eapply (IH _ (cur ++ [c1]) (c2 :: pre) post c); [done|done|].
    rewrite lookup_insert_ne; [done|].
    intros Heq. apply (f_equal length) in Heq. rewrite !length_app in Heq.
    simpl in Heq. lia.
Qed.

(** X8. When the resolved folder of a fetch, or a directory on the way
    to it, is a regular file, the directory cannot be made: the answer is
    500 "Failed to create directory '<path>': File exists" (or "Not a
    directory"), nothing is downloaded and the state is untouched. *)
Theorem fetch_blocked_by_a_file {F} (w : World F) payload args st pre post c :
  download_request w payload = Return args →
  in_parents DATA_ROOT (work_dir_of (DownloadS3Args.folder args)) = true →
  work_dir_of (DownloadS3Args.folder args) = pre ++ post →
  pre ≠ [] →
  fs st !! pre = Some (Fs.File c) →
  ∃ reason,
    (reason = "File exists" ∨ reason = "Not a directory")
    ∧ download_files_from_s3 w payload st
      = (Raise (HTTPException 500
                  ("Failed to create directory '"
                     +:+ PathLib.str (work_dir_of (DownloadS3Args.folder args))
                     +:+ "': " +:+ reason)), st).
Proof.
  intros Hreq Hp Hsplit Hpre Hfile.
  rewrite (download_after_request _ _ _ _ Hreq), download_steps_cases, Hp.
  destruct (mkdir_from_blocked _ (fs st) [] pre post c Hsplit Hpre Hfile)
    as [e He].
  unfold Fs.mkdir_parents. rewrite He.
  destruct (mkdir_from_errno _ _ _ _ He) as [-> | ->]; simpl; eauto.
Qed.

Lemma fetch_blocked_witness :
  ∃ reason,
    (reason = "File exists" ∨ reason = "Not a directory")
    ∧ download_files_from_s3 Demo.quiet
        (Demo.download_payload "Wheat/SWSW7501.WHX/run" "A.WHX" ["A.WHX"]) Demo.start
      = (Raise (HTTPException 500
                  ("Failed to create directory '"
                     +:+ PathLib.str (work_dir_of "Wheat/SWSW7501.WHX/run")
                     +:+ "': " +:+ reason)), Demo.start).
Proof.
  apply (fetch_blocked_by_a_file Demo.quiet _
           {| DownloadS3Args.folder := "Wheat/SWSW7501.WHX/run";
              DownloadS3Args.experiment_file := "A.WHX";
              DownloadS3Args.files_names_list := ["A.WHX"] |}
           Demo.start (DATA_ROOT ++ ["Wheat"; "SWSW7501.WHX"]) ["run"] "*EXP.DETAILS");
    vm_compute; try reflexivity. discriminate.
Defined.

(** ** What a collect stores and removes *)

Lemma elem_of_files_under (fs : FS) p q c :
  (q, c) ∈ Fs.files_under fs p
  ↔ fs !! q = Some (Fs.File c) ∧ p `prefix_of` q ∧ Fs.is_file fs q = true.
Proof.
  unfold Fs.files_under. rewrite list_elem_of_omap. split.
  - intros ([q' n] & Hin & Hsome). apply elem_of_map_to_list in Hin.
    destruct n as [c'|]; [|done].
    destruct (Fs.under p q') eqn:Hu; simpl in Hsome; [|done].
    destruct (Fs.is_file fs q') eqn:Hf; simpl in Hsome; [|done].
    injection Hsome as -> ->. split_and!; [done| |done].
    by apply bool_decide_eq_true in Hu.
  - intros (Hq & Hp & Hf). exists (q, Fs.File c). split.
    + by apply elem_of_map_to_list.
    + unfold Fs.under. by rewrite bool_decide_true, Hf by done.
Qed.

Lemma relative_to_app (base rest : Path) :
  PathLib.relative_to base (base ++ rest) = Py.join "/" rest.
Proof. unfold PathLib.relative_to. by rewrite drop_app_length. Qed.

Lemma read_plain (fs : FS) p c :
  ".." ∉ p → Fs.read fs p = Some c →
  fs !! p = Some (Fs.File c) ∧ Fs.is_file fs p = true.
Proof.
  unfold Fs.read, Fs.is_file, Fs.stat. intros Hp.
  destruct (Fs.walk fs [] p) as [|q] eqn:Hw; [done|].
  apply walk_plain in Hw as ->; [|done]. simpl.
  destruct p; [done|]. simpl.
  destruct (fs !! _) as [[c'|]|]; [|done..]. by intros [= ->].
Qed.

(** X9. When a collect succeeds, the archive stored under [folder.zip] was
    built from the folder as it was before the removal: every regular file
    reached below the folder is an entry of it, under its path relative to
    the folder and with its content; and every entry is such a file. *)
Theorem collected_archive_is_complete {F} (w : World F) payload args st r :
  upload_request payload = Return args →
  (upload_and_collect_output_files w payload st).1 = Return r →
  ∃ buf,
    log (upload_and_collect_output_files w payload st).2
    = log st ++ [EvChdir (work_dir_of (UploadCollectOutputArgs.folder args));
                 EvUpload (UploadCollectOutputArgs.folder args +:+ ".zip") buf;
                 EvRmtree (work_dir_of (UploadCollectOutputArgs.folder args))]
    ∧ (∀ rest c,
         ".." ∉ rest →
         Fs.read (fs st) (work_dir_of (UploadCollectOutputArgs.folder args) ++ rest)
         = Some c →
         (Py.join "/" rest, c) ∈ buf)
    ∧ (∀ name c,
         (name, c) ∈ buf →
         ∃ q, fs st !! q = Some (Fs.File c)
            ∧ work_dir_of (UploadCollectOutputArgs.folder args) `prefix_of` q
            ∧ Fs.is_file (fs st) q = true
            ∧ name = PathLib.relative_to
                       (work_dir_of (UploadCollectOutputArgs.folder args)) q).
Proof.
  intros Hreq. rewrite (upload_after_request _ _ _ _ Hreq), upload_steps_cases.
  set (work_dir := work_dir_of _).
  destruct (Fs.stat (fs st) work_dir) as [[]|[c0|]]; simpl; try done.
  destruct (boto3_client w); simpl; [done|].
  unfold build_zip. simpl.
  destruct (find _ _); simpl; [done|].
  destruct (s3_upload w _ _); simpl; [done|].
  destruct (s3_presign w _); simpl; [done|]. intros _.
  eexists. split_and!.
  - unfold collected. simpl. by rewrite <- !app_assoc.
  - intros rest c Hrest Hread.
    apply read_plain in Hread as [Hq Hf].
    2:{ intros [?|?]%elem_of_app; [by eapply resolve_plain|done]. }
    apply list_elem_of_fmap. exists (work_dir ++ rest, c). split.
    + simpl. by rewrite relative_to_app.
    + apply elem_of_files_under. split_and!; [done|by apply prefix_app_r|done].
  - intros name c ([q c'] & [= -> ->] & Hin)%list_elem_of_fmap.
    apply elem_of_files_under in Hin as (? & ? & ?). by exists q.
Qed.

Lemma collected_archive_witness :
  ∃ buf,
    log (upload_and_collect_output_files Demo.quiet (Demo.upload_payload "Wheat")
           Demo.start).2
    = log Demo.start ++ [EvChdir (work_dir_of "Wheat");
                         EvUpload ("Wheat" +:+ ".zip") buf;
                         EvRmtree (work_dir_of "Wheat")]
    ∧ (∀ rest c,
         ".." ∉ rest →
         Fs.read (fs Demo.start) (work_dir_of "Wheat" ++ rest) = Some c →
         (Py.join "/" rest, c) ∈ buf)
    ∧ (∀ name c,
         (name, c) ∈ buf →
         ∃ q, fs Demo.start !! q = Some (Fs.File c)
            ∧ work_dir_of "Wheat" `prefix_of` q
            ∧ Fs.is_file (fs Demo.start) q = true
            ∧ name = PathLib.relative_to (work_dir_of "Wheat") q).
Proof.
  apply (collected_archive_is_complete Demo.quiet (Demo.upload_payload "Wheat")
           {| UploadCollectOutputArgs.folder := "Wheat" |} Demo.start
           {| UploadCollectOutputArgsResult.exit_code := 200;
              UploadCollectOutputArgsResult.s3_presigned_url :=
                "https://bucket.s3.amazonaws.com/Wheat.zip" |});
    vm_compute; reflexivity.
Defined.

(** X10. A collect changes the file system only after the archive is
    stored: either the file system is as it was, or the handler has
    entered the folder, stored the archive under [folder.zip] and then
    removed the folder, and that removal is the only change. *)
Theorem collect_changes_disk_after_upload {F} (w : World F) payload st :
  fs (upload_and_collect_output_files w payload st).2 = fs st
  ∨ ∃ args buf,
      upload_request payload = Return args
      ∧ s3_upload w (UploadCollectOutputArgs.folder args +:+ ".zip") buf = None
      ∧ log (upload_and_collect_output_files w payload st).2
        = log st ++ [EvChdir (work_dir_of (UploadCollectOutputArgs.folder args));
                     EvUpload (UploadCollectOutputArgs.folder args +:+ ".zip") buf;
                     EvRmtree (work_dir_of (UploadCollectOutputArgs.folder args))]
      ∧ fs (upload_and_collect_output_files w payload st).2
        = Fs.rmtree (rm_refused w) (fs st)
            (work_dir_of (UploadCollectOutputArgs.folder args)).
Proof.
  destruct (upload_request payload) as [args|e] eqn:Hreq.
  2:{ unfold upload_and_collect_output_files. run_m. rewrite Hreq. by left. }
  rewrite (upload_after_request _ _ _ _ Hreq), upload_steps_cases.
  destruct (Fs.stat (fs st) _) as [[]|[c|]]; simpl; try by left.
  destruct (boto3_client w); simpl; [by left|].
  destruct (build_zip w _ _).1 as [buf|e]; simpl; [|by left].
  destruct (s3_upload w _ buf) eqn:Hup; simpl; [by left|].
  right. exists args, buf. split_and!; [done|done| |];
    destruct (s3_presign w _); unfold collected; simpl; by rewrite <- ?app_assoc.
Qed.

Lemma held_when_nothing_refused (refused : Path → bool) (fs : FS) q :
  (∀ p, refused p = false) → Fs.held refused fs q = false.
Proof.
  intros Hno. unfold Fs.held. induction ((map_to_list fs).*1) as [|d l IH]; [done|].
  simpl. by rewrite Hno, IH.
Qed.

Lemma rmtree_lookup (refused : Path → bool) (fs : FS) p q :
  (∀ d, refused d = false) → Fs.is_dir fs p = true →
  Fs.rmtree refused fs p !! q = if Fs.under p q then None else fs !! q.
Proof.
  intros Hno Hd. unfold Fs.rmtree. rewrite Hd, map_lookup_filter.
  destruct (fs !! q) as [n|] eqn:Hq; simpl; [|by destruct (Fs.under p q)].
  rewrite held_when_nothing_refused by done.
  destruct (Fs.under p q).
  - rewrite option_guard_False; [done|]. by intros [?|?].
  - rewrite option_guard_True; [done|]. by left.
Qed.

Lemma walk_plain_agree (fs fs' : FS) cs : ∀ cur,
  ".." ∉ cs →
  (∀ pre, pre `prefix_of` cs → pre ≠ cs →
          Fs.node_at fs' (cur ++ pre) = Fs.node_at fs (cur ++ pre)) →
  Fs.walk fs' cur cs = Fs.walk fs cur cs.
Proof.
  induction cs as [|c cs IH]; intros cur Hplain Hagree; [done|]. simpl.
  apply not_elem_of_cons in Hplain as [Hc Hplain].
  assert (Fs.node_at fs' cur = Fs.node_at fs cur) as ->.
  { rewrite <- (app_nil_r cur). apply Hagree; [apply prefix_nil|done]. }
  destruct (Fs.node_at fs cur) as [[?|]|]; [done| |done].
  rewrite decide_False by done. apply IH; [done|].
  intros pre Hpre Hne. rewrite <- !app_assoc. apply Hagree.
  - by apply prefix_cons.
  - by intros [= ->].
Qed.

(** X11. When the system refuses no removal and the resolved folder is
    not the root of the file system, a collect that succeeds leaves no
    entry at or below the folder (its path no longer exists) and leaves
    every entry outside the folder as it was. *)
Theorem collected_folder_is_removed {F} (w : World F) payload args st r :
  upload_request payload = Return args →
  (∀ p, rm_refused w p = false) →
  work_dir_of (UploadCollectOutputArgs.folder args) ≠ [] →
  (upload_and_collect_output_files w payload st).1 = Return r →
  Fs.stat (fs (upload_and_collect_output_files w payload st).2)
    (work_dir_of (UploadCollectOutputArgs.folder args)) = inl ENOENT
  ∧ (∀ q, work_dir_of (UploadCollectOutputArgs.folder args) `prefix_of` q →
          fs (upload_and_collect_output_files w payload st).2 !! q = None)
  ∧ (∀ q, ¬ work_dir_of (UploadCollectOutputArgs.folder args) `prefix_of` q →
          fs (upload_and_collect_output_files w payload st).2 !! q = fs st !! q).
Proof.
  intros Hreq Hno Hroot.
  rewrite (upload_after_request _ _ _ _ Hreq), upload_steps_cases.
  set (work_dir := work_dir_of _) in *.
  destruct (Fs.stat (fs st) work_dir) as [[]|[c0|]] eqn:Hstat; simpl; try done.
  assert (Fs.is_dir (fs st) work_dir = true) as Hd
    by (unfold Fs.is_dir; by rewrite Hstat).
  destruct (boto3_client w); simpl; [done|].
  destruct (build_zip w _ _).1; simpl; [|done].
  destruct (s3_upload w _ _); simpl; [done|].
  destruct (s3_presign w _); simpl; [done|]. intros _.
  unfold collected. simpl.
  assert (∀ q, Fs.rmtree (rm_refused w) (fs st) work_dir !! q
               = if Fs.under work_dir q then None else fs st !! q) as Hlook
    by (intros q; by apply rmtree_lookup).
  assert (∀ q, work_dir `prefix_of` q →
               Fs.rmtree (rm_refused w) (fs st) work_dir !! q = None) as Hin.
  { intros q Hq. rewrite Hlook. unfold Fs.under. by rewrite bool_decide_true. }
  assert (∀ q, ¬ work_dir `prefix_of` q →
               Fs.rmtree (rm_refused w) (fs st) work_dir !! q = fs st !! q) as Hout.
  { intros q Hq. rewrite Hlook. unfold Fs.under. by rewrite bool_decide_false. }
  split_and!; [|done|done].
  assert (".." ∉ work_dir) as Hplain by apply resolve_plain.
  destruct (is_dir_named (fs st) work_dir Hplain Hd) as [Hnamed _].
  unfold FsRel.named in Hnamed. unfold Fs.stat.
  rewrite (walk_plain_agree (fs st) _ work_dir [] Hplain).
  - rewrite Hnamed. destruct work_dir eqn:Hw; [done|]. simpl.
    by rewrite Hin.
  - intros pre Hpre Hne. simpl. destruct pre; [done|]. simpl. apply Hout.
    intros Hpre'. apply Hne. by apply (anti_symm prefix).
Qed.

Lemma collected_folder_witness :
  Fs.stat (fs (upload_and_collect_output_files Demo.quiet (Demo.upload_payload "Wheat")
                 Demo.start).2) (work_dir_of "Wheat") = inl ENOENT
  ∧ (∀ q, work_dir_of "Wheat" `prefix_of` q →
          fs (upload_and_collect_output_files Demo.quiet (Demo.upload_payload "Wheat")
                Demo.start).2 !! q = None)
  ∧ (∀ q, ¬ work_dir_of "Wheat" `prefix_of` q →
          fs (upload_and_collect_output_files Demo.quiet (Demo.upload_payload "Wheat")
                Demo.start).2 !! q = fs Demo.start !! q).
Proof.
  apply (collected_folder_is_removed Demo.quiet (Demo.upload_payload "Wheat")
           {| UploadCollectOutputArgs.folder := "Wheat" |} Demo.start
           {| UploadCollectOutputArgsResult.exit_code := 200;
              UploadCollectOutputArgsResult.s3_presigned_url :=
                "https://bucket.s3.amazonaws.com/Wheat.zip" |}).
  - vm_compute. reflexivity.
  - intros p. reflexivity.
  - vm_compute. discriminate.
  - vm_compute. reflexivity.
Defined.

(** ** More on the summary parser *)


Lemma length_substring_le n m s : (String.length (String.substring n m s) ≤ m)%nat.
Proof.
  revert m s. induction n as [|n IH]; intros m s.
  - revert s. induction m as [|m IHm]; intros [|c s]; simpl; try lia.
    specialize (IHm s). lia.
  - destruct s as [|c s]; simpl; [lia|apply IH].
Qed.

Lemma length_rev_app s t :
  String.length (String.rev_app s t) = (String.length s + String.length t)%nat.
Proof.
  revert t. induction s as [|c s IH]; intros t; simpl; [done|].
  rewrite IH. simpl. lia.
Qed.

Lemma length_lstrip_le s : (String.length (Py.lstrip s) ≤ String.length s)%nat.
Proof.
  induction s as [|c s IH]; simpl; [done|].
  destruct (Py.is_space c); simpl; lia.
Qed.

Lemma length_strip_le s : (String.length (Py.strip s) ≤ String.length s)%nat.
Proof.
  unfold Py.strip, Py.rstrip, String.rev. rewrite length_rev_app. simpl.
  etrans; [rewrite Nat.add_0_r; apply length_lstrip_le|].
  rewrite length_rev_app. simpl. rewrite Nat.add_0_r. apply length_lstrip_le.
Qed.






Lemma length_omap_le {A B} (f : A → option B) (l : list A) :
  (length (omap f l) ≤ length l)%nat.
Proof.
  induction l as [|x l IH]; [done|].
  change (omap f (x :: l))
    with (match f x with Some y => y :: omap f l | None => omap f l end).
  destruct (f x); simpl; lia.
Qed.

(** X13. In a report of [_parse_summary] there are at most as many
    treatments as the file has lines, the experiment code of each has at
    most 8 characters and its date at most 6. *)
Theorem summary_fields_are_bounded {F} (w : World F) (fs : FS) (work_dir : Path) report :
  _parse_summary w fs work_dir = Some report →
  (SummaryReport.n_treatments report
   ≤ length (Py.lines (default "" (Fs.read fs (work_dir ++ ["SUMMARY.OUT"])))))%nat
  ∧ Forall (λ r, (String.length (SummaryRecord.expt r) ≤ 8)%nat
                 ∧ (String.length (SummaryRecord.pl_date r) ≤ 6)%nat)
      (SummaryReport.treatments report).
Proof.
  unfold _parse_summary. rewrite joinpath_plain_name.
  destruct (Fs.is_file fs _); simpl; [|done].
  rewrite summary_loop_spec. simpl. intros [= <-]. simpl. split.
  - unfold parsed_records. etrans; [apply length_omap_le|].
    apply length_filter.
  - apply Forall_forall. intros r Hr. unfold parsed_records in Hr.
    apply list_elem_of_omap in Hr as (line & _ & Hparse).
    unfold parse_line in Hparse. destruct (py_float w _); [|done].
    injection Hparse as <-. simpl. split.
    + etrans; [apply length_strip_le|]. apply (length_substring_le 0 8).
    + etrans; [apply length_strip_le|]. apply (length_substring_le 19 6).
Qed.

Lemma summary_fields_witness :
  (1 ≤ length (Py.lines (default ""
                  (Fs.read Demo.site (work_dir_of "Wheat" ++ ["SUMMARY.OUT"])))))%nat
  ∧ Forall (λ r : SummaryRecord.t Demo.Decimal,
              (String.length (SummaryRecord.expt r) ≤ 8)%nat
              ∧ (String.length (SummaryRecord.pl_date r) ≤ 6)%nat)
      [{| SummaryRecord.expt := "SWSW7501"; SummaryRecord.pl_date := "750325";
          SummaryRecord.yield_kg_ha := (3456, 0%nat) |}].
Proof.
  apply (summary_fields_are_bounded Demo.quiet Demo.site (work_dir_of "Wheat")
           {| SummaryReport.n_treatments := 1;
              SummaryReport.treatments :=
                [{| SummaryRecord.expt := "SWSW7501"; SummaryRecord.pl_date := "750325";
                    SummaryRecord.yield_kg_ha := (3456, 0%nat) |}] |}).
  vm_compute. reflexivity.
Defined.

(** ** Validation of the payload *)

Lemma as_str_list_strings (names : list string) :
  as_str_list (JArr (JStr <$> names)) = Some names.
Proof.
  unfold as_str_list. induction names as [|name names IH]; [done|].
  cbn. cbn in IH. by rewrite IH.
Qed.

(** X14. A list of strings sent as [files_names_list] is taken as it is:
    the request holds the same names in the same order, repeated names
    included, whether the fields are sent flat or under ["args"]. *)
Theorem file_names_are_kept {F} (w : World F) (d : dict) folder file names :
  dict_get "folder" d = Some (JStr folder) →
  dict_get "experiment_file" d = Some (JStr file) →
  dict_get "files_names_list" d = Some (JArr (JStr <$> names)) →
  download_request w d
  = Return {| DownloadS3Args.folder := folder;
              DownloadS3Args.experiment_file := file;
              DownloadS3Args.files_names_list := names |}
  ∧ download_request w (wrap_args d) = download_request w d.
Proof.
  intros Hf He Hl.
  assert (DownloadS3Args_new w (JObj d)
          = Return {| DownloadS3Args.folder := folder;
                      DownloadS3Args.experiment_file := file;
                      DownloadS3Args.files_names_list := names |}) as Hnew.
  { unfold DownloadS3Args_new. rewrite Hf, He, Hl. cbn [as_str].
    unfold coerce_files.
    destruct (JStr <$> names) eqn:Hnames; by rewrite <- ?Hnames, as_str_list_strings. }
  assert (download_request w d = DownloadS3Args_new w (JObj d)) as Hflat.
  { unfold download_request, has_key. by rewrite Hf, He, Hl. }
  split; [by rewrite Hflat|].
  rewrite Hflat. by destruct (requests_nested w d) as (_ & -> & _).
Qed.

Lemma file_names_witness :
  download_request Demo.quiet
    (Demo.download_payload "Maize" "UFGA8201.MZX" ["SOIL.SOL"; "SOIL.SOL"; "A.WTH"])
  = Return {| DownloadS3Args.folder := "Maize";
              DownloadS3Args.experiment_file := "UFGA8201.MZX";
              DownloadS3Args.files_names_list := ["SOIL.SOL"; "SOIL.SOL"; "A.WTH"] |}
  ∧ download_request Demo.quiet
      (wrap_args (Demo.download_payload "Maize" "UFGA8201.MZX"
                    ["SOIL.SOL"; "SOIL.SOL"; "A.WTH"]))
    = download_request Demo.quiet
        (Demo.download_payload "Maize" "UFGA8201.MZX" ["SOIL.SOL"; "SOIL.SOL"; "A.WTH"]).
Proof. apply file_names_are_kept; reflexivity. Defined.

(** X15. A payload that has ["args"] but whose arguments fail the schema
    is not answered with the 400 of the handler: when the folder is missing
    or is not a string, [run_dssat_experiment] and
    [upload_and_collect_output_files] raise the validation error of the
    schema, and when ["args"] is not an object they raise [TypeError];
    in both cases before any effect. *)
Theorem wrapped_arguments_failing_schema {F} (w : World F) (st : State) :
  (∀ a, as_str (dict_get "folder" a) = None →
        run_dssat_experiment w (wrap_args a) st = (Raise ValidationError, st)
        ∧ upload_and_collect_output_files w (wrap_args a) st
          = (Raise ValidationError, st))
  ∧ (∀ v, (∀ a, v ≠ JObj a) →
          run_dssat_experiment w [("args", v)] st = (Raise PyTypeError, st)
          ∧ upload_and_collect_output_files w [("args", v)] st
            = (Raise PyTypeError, st)).
Proof.
  split.
  - intros a Hf.
    unfold run_dssat_experiment, upload_and_collect_output_files. run_m.
    destruct (requests_nested w a) as (-> & _ & ->).
    unfold RunArgs_new, UploadCollectOutputArgs_new. by rewrite Hf.
  - intros v Hv.
    unfold run_dssat_experiment, upload_and_collect_output_files. run_m.
    destruct v; try done. by destruct (Hv fields).
Qed.

Lemma wrapped_arguments_witness :
  (run_dssat_experiment Demo.quiet (wrap_args [("experiment_file", JStr "A.WHX")])
     Demo.start = (Raise ValidationError, Demo.start)
   ∧ upload_and_collect_output_files Demo.quiet
       (wrap_args [("experiment_file", JStr "A.WHX")]) Demo.start
     = (Raise ValidationError, Demo.start))
  ∧ (run_dssat_experiment Demo.quiet [("args", JStr "Wheat")] Demo.start
     = (Raise PyTypeError, Demo.start)
     ∧ upload_and_collect_output_files Demo.quiet [("args", JStr "Wheat")] Demo.start
       = (Raise PyTypeError, Demo.start)).
Proof.
  destruct (wrapped_arguments_failing_schema Demo.quiet Demo.start) as [H1 H2].
  split; [by apply H1|by apply H2].
Defined.

(** ** The token verifier *)



(** X17. A request whose token [verify] does not accept (no token, no
    signing key for it, or [jwt.decode] refuses it) never reaches the body
    of the handler: whatever the tool and the payload, the state is
    untouched (no file-system change, nothing logged) and the answer is a
    401, a 403, or the uncaught error of the key lookup. *)
Theorem rejected_token_stops_the_call {Key Claims F}
    (jwt : Jwt Key Claims) (w : World F) token tool payload st :
  (∀ credentials key claims,
     token = Some credentials →
     get_signing_key_from_jwt jwt credentials = inr key →
     jwt_decode jwt credentials key ≠ inr claims) →
  ∃ e, secured jwt token (call_tool w tool payload) st = (Raise e, st)
     ∧ (e = HTTPException 401 "Requires authentication"
        ∨ (∃ detail, e = HTTPException 403 detail)
        ∨ (∃ text, e = OtherException text)).
Proof.
  intros Hrej. unfold secured, verify.
  destruct token as [credentials|]; [|by eauto].
  destruct (get_signing_key_from_jwt jwt credentials) as [[t|t|t]|key] eqn:Hkey;
    [by eauto 10..|].
  destruct (jwt_decode jwt credentials key) as [error|claims] eqn:Hdec;
    [by eauto 10|].
  by destruct (Hrej credentials key claims).
Qed.

Lemma rejected_token_witness :
  ∃ e, secured DemoAuth.jwt (Some "kid1:mallory")
         (call_tool Demo.quiet UploadTool (Demo.upload_payload "Wheat")) Demo.start
       = (Raise e, Demo.start)
     ∧ (e = HTTPException 401 "Requires authentication"
        ∨ (∃ detail, e = HTTPException 403 detail)
        ∨ (∃ text, e = OtherException text)).
Proof.
  apply rejected_token_stops_the_call.
  intros credentials key claims [= <-] Hkey. vm_compute. discriminate.
Defined.

(** With the one accepted token of the example, the call is the handler's. *)
Example accepted_token_reaches_the_handler :
  secured DemoAuth.jwt (Some "kid1:alice")
    (call_tool Demo.quiet UploadTool (Demo.upload_payload "Wheat")) Demo.start
  = call_tool Demo.quiet UploadTool (Demo.upload_payload "Wheat") Demo.start.
Proof. reflexivity. Qed.

(** ** What a run writes *)

(** X18. [run_dssat_experiment] writes nothing itself: after the call the
    file system is as it was, or it is what the process started by the
    call left (on completion or at the timeout). *)
Theorem run_writes_nothing_itself {F} (w : World F) payload st :
  fs (run_dssat_experiment w payload st).2 = fs st
  ∨ ∃ args fs',
      run_request payload = Return args
      ∧ ((∃ rc out err,
            subprocess_run w (run_cmd args) (work_dir_of (RunArgs.folder args)) 600
              (fs st) = Completed rc out err fs')
         ∨ subprocess_run w (run_cmd args) (work_dir_of (RunArgs.folder args)) 600
             (fs st) = Expired fs')
      ∧ fs (run_dssat_experiment w payload st).2 = fs'.
Proof.
  destruct (run_request payload) as [args|e] eqn:Hreq.
  2:{ unfold run_dssat_experiment. run_m. rewrite Hreq. by left. }
  rewrite (run_after_request _ _ _ _ Hreq).
  destruct (Fs.is_dir (fs st) (work_dir_of (RunArgs.folder args))) eqn:Hd;
    [|rewrite run_steps_invalid by auto; by left].
  destruct (in_parents DATA_ROOT (work_dir_of (RunArgs.folder args))) eqn:Hp;
    [|rewrite run_steps_invalid by auto; by left].
  destruct (Fs.is_file (fs st)
              (PathLib.joinpath (work_dir_of (RunArgs.folder args))
                 (RunArgs.experiment_file args))) eqn:Hf;
    [|rewrite (run_steps_no_file w args st Hd Hp Hf); by left].
  rewrite (run_steps_spawn w args st Hd Hp Hf). simpl.
  destruct (subprocess_run w _ _ 600 (fs st)) as [rc out err fs'|fs'|e] eqn:Hrun;
    simpl; [right|right|by left]; exists args, fs'; eauto 10.
Qed.
